(** * A shallow embedding of the limit order manager

  The C++ sources modelled here are [include/order.hpp] (the [Order]
  struct), [include/order_manager.hpp] and [src/order_manager.cpp] (the
  [OrderManager] class).  Unsigned machine integers are unbounded [N]/[Z]
  values with the wrap-around written where the code can reach it, the
  [double] price is a binary64 primitive float, [std::unordered_map] is a
  [gmap], and every member function is a pure function from the manager
  state to a result and a new state. *)

From Stdlib Require Import ZArith NArith Floats Ascii String List Sorting.Sorted.
From stdpp Require Import gmap strings list fin_maps sorting pretty.

Local Open Scope Z_scope.

(** ** [struct Order] *)

Module Order.

Record t : Type := mk {
  id       : N;      (* uint64_t *)
  price    : float;  (* double   *)
  quantity : N;      (* uint32_t *)
  side     : N       (* uint32_t, 0 = buy, 1 = sell *)
}.

Definition is_buy (o : t) : bool := N.eqb (side o) 0.
Definition is_sell (o : t) : bool := N.eqb (side o) 1.

End Order.

(** ** The C++ standard library calls the manager makes

    Streams are the text still to be read; a thrown exception is [None]. *)

Module Std.

Local Open Scope string_scope.

Definition uint64_max : N := 18446744073709551615%N.

(** [isspace] in the "C" locale: space and the controls 9 to 13. *)
Definition isspace (c : ascii) : bool :=
  let n := N_of_ascii c in
  (n =? 32)%N || ((9 <=? n)%N && (n <=? 13)%N).

Definition isdigit (c : ascii) : bool :=
  let n := N_of_ascii c in (48 <=? n)%N && (n <=? 57)%N.

Definition digit_value (c : ascii) : N := (N_of_ascii c - 48)%N.

Fixpoint skip_spaces (s : string) : string :=
  match s with
  | String c s' => if isspace c then skip_spaces s' else s
  | EmptyString => s
  end.

(** The value of the longest prefix of decimal digits, started from [acc]. *)
Fixpoint read_digits (acc : N) (s : string) : N :=
  match s with
  | String c s' =>
      if isdigit c then read_digits (acc * 10 + digit_value c)%N s' else acc
  | EmptyString => acc
  end.

Definition starts_with_digit (s : string) : bool :=
  match s with
  | String c _ => isdigit c
  | EmptyString => false
  end.

(** [strtoull] in base 10 as [std::stoull] uses it: leading white space, an
    optional sign, then at least one digit; whatever follows the digits is
    ignored.  No digit is [std::invalid_argument], a magnitude above
    [ULLONG_MAX] is [std::out_of_range], and a minus sign negates the
    magnitude modulo [2^64]. *)
Definition stoull (s : string) : option N :=
  let s1 := skip_spaces s in
  let '(neg, s2) :=
    match s1 with
    | String "-" r => (true, r)
    | String "+" r => (false, r)
    | _ => (false, s1)
    end in
  if starts_with_digit s2 then
    let v := read_digits 0 s2 in
    if (uint64_max <? v)%N then None
    else Some (if neg then (2 ^ 64 - v) mod 2 ^ 64 else v)%N
  else None.

(** [unsigned long] is taken to have 64 bits (the LP64 data model), so
    [std::stoul] reads what [std::stoull] reads. *)
Definition stoul (s : string) : option N := stoull s.

(** The conversion of the [unsigned long] result to [uint32_t]. *)
Definition to_uint32 (n : N) : N := (n mod 2 ^ 32)%N.

(** [std::getline(stream, token, delim)] called until it fails: the pieces
    between delimiters, without a last empty piece (at end of input
    [getline] extracts nothing and fails). *)
Fixpoint getline_all_from (delim : ascii) (cur : string) (s : string) : list string :=
  match s with
  | EmptyString => if decide (cur = "") then [] else [cur]
  | String c s' =>
      if Ascii.eqb c delim then cur :: getline_all_from delim "" s'
      else getline_all_from delim (cur ++ String c "") s'
  end.

Definition getline_all (delim : ascii) (s : string) : list string :=
  getline_all_from delim "" s.

Definition newline : ascii := ascii_of_N 10.

(** [s.find(pat) != std::string::npos]. *)
Fixpoint contains (pat s : string) : bool :=
  String.prefix pat s ||
  match s with
  | String _ s' => contains pat s'
  | EmptyString => false
  end.

(** [operator<<] for an unsigned integer: its decimal digits. *)
Definition put_unsigned (n : N) : string := pretty n.

(** [std::setw(w)] before one insertion: the field is padded on the left
    with spaces up to [w] characters and never cut. *)
Definition spaces (n : nat) : string := string_of_list_ascii (replicate n " "%char).

Definition setw (w : nat) (field : string) : string :=
  spaces (w - String.length field) ++ field.

Definition digit_char (d : Z) : ascii := ascii_of_N (48 + Z.to_N d)%N.

Definition two_digits (n : Z) : string :=
  String (digit_char (n / 10)%Z) (String (digit_char (n mod 10)%Z) "").

(** [num / den] rounded to the nearest integer, ties to even. *)
Definition round_half_even (num den : Z) : Z :=
  let q := (num / den)%Z in
  let r := (num mod den)%Z in
  if (2 * r <? den)%Z then q
  else if (den <? 2 * r)%Z then (q + 1)%Z
  else if Z.even q then q else (q + 1)%Z.

(** The hundredths nearest to [m * 2^e]. *)
Definition hundredths (m : positive) (e : Z) : Z :=
  if (0 <=? e)%Z then (Z.pos m * 2 ^ e * 100)%Z
  else round_half_even (Z.pos m * 100)%Z (2 ^ (- e))%Z.

Definition sign_text (s : bool) : string := if s then "-" else "".

(** [os << std::fixed << std::setprecision(2) << x]: the exact binary value
    rounded to two decimals in the default rounding mode; infinities and
    NaN have no digits (the sign of a NaN is not modelled). *)
Definition put_fixed2 (x : float) : string :=
  match Prim2SF x with
  | S754_zero s => sign_text s ++ "0.00"
  | S754_infinity s => sign_text s ++ "inf"
  | S754_nan => "nan"
  | S754_finite s m e =>
      let h := hundredths m e in
      sign_text s ++ pretty (Z.to_N (h / 100)%Z) ++ "." ++ two_digits (h mod 100)%Z
  end.

(** [std::sort] for a comparator that is a strict weak order: the model is
    the stable insertion sort (what libstdc++ runs on short ranges).  For
    any other comparator [std::sort] is undefined and the model stands for
    nothing; [std::sort] is not stable either, so the order of equivalent
    elements is one among those possible. *)
Fixpoint sort_insert {A} (comp : A → A → bool) (x : A) (l : list A) : list A :=
  match l with
  | [] => [x]
  | y :: l' => if comp y x then y :: sort_insert comp x l' else x :: l
  end.

Definition sort {A} (comp : A → A → bool) (l : list A) : list A :=
  foldr (sort_insert comp) [] l.

(** Where a binary64 value that is not a NaN stands in the order that
    [<] and [<=] on [double] decide: class, then exponent, then mantissa. *)
Definition sf_key (f : spec_float) : option (Z * Z * Z) :=
  match f with
  | S754_nan => None
  | S754_infinity true => Some (-2, 0, 0)%Z
  | S754_infinity false => Some (2, 0, 0)%Z
  | S754_zero _ => Some (0, 0, 0)%Z
  | S754_finite true m e => Some (-1, - e, - Z.pos m)%Z
  | S754_finite false m e => Some (1, e, Z.pos m)%Z
  end.

Definition key_lt (a b : Z * Z * Z) : Prop :=
  (a.1.1 < b.1.1 ∨
   (a.1.1 = b.1.1 ∧ (a.1.2 < b.1.2 ∨ (a.1.2 = b.1.2 ∧ a.2 < b.2))))%Z.

Fixpoint has_char (c : ascii) (s : string) : bool :=
  match s with
  | String c' s' => Ascii.eqb c' c || has_char c s'
  | EmptyString => false
  end.

(** Every line written with [std::endl]. *)
Definition endl_text (lines : list string) : string :=
  foldr (λ l acc, l ++ String newline acc) "" lines.

(** A reference instance of [std::stod] for plain decimal text
    [ws sign digits . digits] (followed by anything that [strtod] would
    not read): the digits are read as an integer and divided by the power
    of ten, one correctly rounded operation when the integer is below
    [2^53] and the power at most [10^18] (both are then converted
    exactly).  Outside that range, and for text with an exponent,
    hexadecimal text, "inf" and "nan", which [std::stod] does read, the
    instance is not defined: its [None] there is not a throw of
    [std::stod].  The theorems are stated for an arbitrary [stod]; this
    instance serves the concrete runs, which stay within plain decimals
    that it reads exactly. *)
Definition float_of_N (n : N) : float := PrimFloat.of_uint63 (Uint63.of_Z (Z.of_N n)).

Fixpoint count_digits (s : string) : nat :=
  match s with
  | String c s' => if isdigit c then S (count_digits s') else O
  | EmptyString => O
  end.

Fixpoint drop_digits (s : string) : string :=
  match s with
  | String c s' => if isdigit c then drop_digits s' else s
  | EmptyString => s
  end.

(** Does the text go on with an exponent, [e] or [E], an optional sign and
    a digit? *)
Definition starts_exponent (s : string) : bool :=
  match s with
  | String c r =>
      (Ascii.eqb c "e" || Ascii.eqb c "E") &&
      match r with
      | String "-" r' | String "+" r' => starts_with_digit r'
      | _ => starts_with_digit r
      end
  | EmptyString => false
  end.

Definition starts_hex (s : string) : bool :=
  match s with
  | String "0" (String c _) => Ascii.eqb c "x" || Ascii.eqb c "X"
  | _ => false
  end.

Definition stod_decimal (s : string) : option float :=
  let s1 := skip_spaces s in
  let '(neg, s2) :=
    match s1 with
    | String "-" r => (true, r)
    | String "+" r => (false, r)
    | _ => (false, s1)
    end in
  let int_part := read_digits 0 s2 in
  let after := drop_digits s2 in
  let '(mant, frac_len, tail) :=
    match after with
    | String "." r => (read_digits int_part r, count_digits r, drop_digits r)
    | _ => (int_part, O, after)
    end in
  let has_digit :=
    starts_with_digit s2 ||
    match s2 with String "." r => starts_with_digit r | _ => false end in
  if has_digit && negb (starts_hex s2) && negb (starts_exponent tail)
     && (mant <? 2 ^ 53)%N && (frac_len <=? 18)%nat then
    let v := (float_of_N mant / float_of_N (10 ^ N.of_nat frac_len))%float in
    Some (if neg then (- v)%float else v)
  else None.

(** Text made of decimal digits only. *)
Fixpoint all_digits (s : string) : bool :=
  match s with
  | String c s' => isdigit c && all_digits s'
  | EmptyString => true
  end.




(** [std::istream] as [std::getline(stream, line)] sees it: the text not
    yet read, and whether the stream is still [good()]. *)
Record istream : Type := mk_istream {
  pending : string;
  good    : bool
}.

(** The characters up to the next newline, and what follows it; [None] when
    the end of the input comes first. *)
Fixpoint read_line (cur : string) (s : string) : string * option string :=
  match s with
  | EmptyString => (cur, None)
  | String c s' =>
      if Ascii.eqb c newline then (cur, Some s')
      else read_line (cur ++ String c "") s'
  end.

(** One call [std::getline(stream, line)] whose result is not looked at.
    On a stream that is not [good()] the sentry fails and [line] keeps its
    old text; otherwise [line] is erased and filled up to the newline or
    the end of the input, and reaching the end sets [eofbit]. *)
Definition getline (stream : istream) (line : string) : string * istream :=
  if good stream then
    match read_line "" (pending stream) with
    | (text, Some rest) => (text, {| pending := rest; good := true |})
    | (text, None) => (text, {| pending := ""; good := false |})
    end
  else (line, stream).

End Std.

(** ** [class OrderManager] *)

Module OrderManager.

(** [uint64_t] / [size_t] arithmetic. *)
Definition wrap64 (z : Z) : Z := z mod 2 ^ 64.

(** A [const Order*] into [orders_] is the key of the node it points to. *)
Record t : Type := mk {
  orders_                 : gmap N Order.t;
  order_ptrs_             : list N;
  snapshot_dirty_         : bool;
  total_orders_added_     : Z;
  total_orders_cancelled_ : Z
}.

(** The default-constructed manager. *)
Definition new : t :=
  {| orders_ := ∅; order_ptrs_ := []; snapshot_dirty_ := true;
     total_orders_added_ := 0; total_orders_cancelled_ := 0 |}.

(** [try_emplace] inserts only when the key is absent. *)
Definition add_order (order : Order.t) (m : t) : bool * t :=
  match orders_ m !! Order.id order with
  | None =>
      (true,
       {| orders_ := <[Order.id order := order]> (orders_ m);
          order_ptrs_ := order_ptrs_ m;
          snapshot_dirty_ := true;
          total_orders_added_ := wrap64 (total_orders_added_ m + 1);
          total_orders_cancelled_ := total_orders_cancelled_ m |})
  | Some _ => (false, m)
  end.

Definition cancel_order (order_id : N) (m : t) : bool * t :=
  match orders_ m !! order_id with
  | Some _ =>
      (true,
       {| orders_ := delete order_id (orders_ m);
          order_ptrs_ := order_ptrs_ m;
          snapshot_dirty_ := true;
          total_orders_added_ := total_orders_added_ m;
          total_orders_cancelled_ := wrap64 (total_orders_cancelled_ m + 1) |})
  | None => (false, m)
  end.

(** [nullptr] is [None]. *)
Definition get_order (order_id : N) (m : t) : option Order.t :=
  orders_ m !! order_id.

Definition size (m : t) : Z := wrap64 (Z.of_nat (base.size (orders_ m))).

Definition empty (m : t) : bool := bool_decide (orders_ m = ∅).

Definition clear (m : t) : t :=
  {| orders_ := ∅; order_ptrs_ := []; snapshot_dirty_ := false;
     total_orders_added_ := 0; total_orders_cancelled_ := 0 |}.

(** The cache is refilled in the map's iteration order, which the C++
    standard leaves unspecified and which in a real [std::unordered_map]
    depends on the bucket count and the history of insertions.  The model
    iterates as [map_to_list] does, one order among those possible: what
    is proved of a listing holds for every order of iteration (which
    orders are listed, their priority), never the place of one order
    among those equal in side and price. *)
Definition rebuild_snapshot_cache (m : t) : t :=
  if snapshot_dirty_ m then
    {| orders_ := orders_ m;
       order_ptrs_ := (map_to_list (orders_ m)).*1;
       snapshot_dirty_ := false;
       total_orders_added_ := total_orders_added_ m;
       total_orders_cancelled_ := total_orders_cancelled_ m |}
  else m.

(** The comparator handed to [std::sort] in [print_snapshot]. *)
Definition snapshot_less (a b : Order.t) : bool :=
  if negb (Bool.eqb (Order.is_buy a) (Order.is_buy b)) then Order.is_buy a
  else if Order.is_buy a then PrimFloat.ltb (Order.price b) (Order.price a)
  else PrimFloat.ltb (Order.price a) (Order.price b).

(** Following the cached pointers into [orders_].  A pointer to an erased
    node has nothing to follow; erasing marks the cache dirty, and a dirty
    cache is rebuilt before it is read. *)
Definition deref (m : t) (ptrs : list N) : list Order.t :=
  omap (λ k, orders_ m !! k) ptrs.

(** [sorted_orders] as [print_snapshot] holds it after [std::sort], for a
    manager whose cache is up to date. *)
Definition sorted_orders (m : t) : list Order.t :=
  Std.sort snapshot_less (deref m (order_ptrs_ m)).

Definition side_label (o : Order.t) : string :=
  if Order.is_buy o then "BUY" else "SELL".

(** One line of the listing. *)
Definition print_row (o : Order.t) : string :=
  (Std.setw 12 (Std.put_unsigned (Order.id o)) ++
   Std.setw 12 (Std.put_fixed2 (Order.price o)) ++
   Std.setw 12 (Std.put_unsigned (Order.quantity o)) ++
   Std.setw 8 (side_label o))%string.

Definition header_row : string :=
  (Std.setw 12 "Order ID" ++ Std.setw 12 "Price" ++
   Std.setw 12 "Quantity" ++ Std.setw 8 "Side")%string.

Definition rule_row : string := string_of_list_ascii (replicate 44 "-"%char).

(** The lines [print_snapshot] writes, each ended by [std::endl]. *)
Definition snapshot_lines (m : t) : list string :=
  let banner :=
    [""%string; "=== ORDER BOOK SNAPSHOT ==="%string;
     ("Total Active Orders: " ++
      pretty (Z.to_N (wrap64 (Z.of_nat (length (order_ptrs_ m))))))%string;
     ""%string] in
  match order_ptrs_ m with
  | [] => banner ++ ["No active orders."%string]
  | _ :: _ =>
      banner ++ [header_row; rule_row] ++ (print_row <$> sorted_orders m) ++ [""%string]
  end.

(** The text sent to the stream and the manager with its cache rebuilt. *)
Definition print_snapshot (m : t) : string * t :=
  let m' := rebuild_snapshot_cache m in
  (Std.endl_text (snapshot_lines m'), m').

(** [std::stod] belongs to the C++ library and is a parameter.  Any
    exception, and any missing field, gives [nullptr]. *)
Definition parse_csv_line (stod : string → option float) (line : string)
  : option Order.t :=
  let fields := Std.getline_all ","%char line in
  token ← fields !! 0%nat;
  id ← Std.stoull token;
  token ← fields !! 1%nat;
  price ← stod token;
  token ← fields !! 2%nat;
  quantity ← Std.to_uint32 <$> Std.stoul token;
  token ← fields !! 3%nat;
  side ← Std.to_uint32 <$> Std.stoul token;
  if (1 <? side)%N then None
  else Some (Order.mk id price quantity side).

(** [if (order && add_order(std::move( *order))) loaded_count++;] *)
Definition load_line (stod : string → option float) (line : string)
  (acc : Z * t) : Z * t :=
  match parse_csv_line stod line with
  | Some order =>
      let '(added, m') := add_order order (acc.2) in
      (if added then wrap64 (acc.1 + 1) else acc.1, m')
  | None => acc
  end.

Definition looks_like_header (line : string) : bool :=
  Std.contains "id" line || Std.contains "ID" line.

(** The loop over the remaining lines; empty lines are passed over. *)
Definition load_rest (stod : string → option float) (lines : list string)
  (acc : Z * t) : Z * t :=
  foldl (λ acc line, if decide (line = ""%string) then acc else load_line stod line acc)
        acc lines.

(** The lines are those [std::getline] returns; the first call is not
    checked, so a file without any line is read as one empty first line. *)
Definition load_lines (stod : string → option float) (lines : list string)
  (m : t) : Z * t :=
  let first := hd ""%string lines in
  let acc := if looks_like_header first then (0, m) else load_line stod first (0, m) in
  load_rest stod (tl lines) acc.

(** [file] is the content of the named file, [None] when it cannot be
    opened; the result is [None] when [std::runtime_error] is thrown. *)
Definition load_from_csv (stod : string → option float) (file : option string)
  (m : t) : option Z * t :=
  match file with
  | None => (None, m)
  | Some content =>
      let r := load_lines stod (Std.getline_all Std.newline content) m in
      (Some r.1, r.2)
  end.

(** The calls a client can make, and a run of them from a given manager. *)
Inductive call : Type :=
| AddOrder (order : Order.t)
| CancelOrder (order_id : N)
| GetOrder (order_id : N)
| PrintSnapshot
| LoadFromCsv (file : option string)
| Clear.

Definition step (stod : string → option float) (m : t) (c : call) : t :=
  match c with
  | AddOrder order => (add_order order m).2
  | CancelOrder order_id => (cancel_order order_id m).2
  | GetOrder _ => m
  | PrintSnapshot => (print_snapshot m).2
  | LoadFromCsv file => (load_from_csv stod file m).2
  | Clear => clear m
  end.

Definition run (stod : string → option float) (calls : list call) (m : t) : t :=
  foldl (step stod) m calls.

(** [sizeof(Order)], fixed by the [static_assert] of [order.hpp]. *)
Definition sizeof_Order : Z := 24.

(** The lines [print_stats] writes, each ended by [std::endl]. *)
Definition stats_lines (m : t) : list string :=
  [""%string; "=== ORDER MANAGER STATISTICS ==="%string;
   ("Active Orders: " ++ pretty (Z.to_N (size m)))%string;
   ("Total Orders Added: " ++ pretty (Z.to_N (total_orders_added_ m)))%string;
   ("Total Orders Cancelled: " ++ pretty (Z.to_N (total_orders_cancelled_ m)))%string;
   ("Order Struct Size: " ++ pretty (Z.to_N sizeof_Order) ++ " bytes")%string;
   ("Memory Usage (estimate): " ++
    pretty (Z.to_N (wrap64 (size m * sizeof_Order))) ++ " bytes")%string;
   ""%string].

Definition print_stats (m : t) : string := Std.endl_text (stats_lines m).

(** [writable] tells whether the named file can be opened for writing; the
    result is [None] when [std::runtime_error] is thrown, before anything
    is printed or rebuilt. *)
Definition print_snapshot_to_file (writable : bool) (m : t) : option string * t :=
  if writable then let r := print_snapshot m in (Some r.1, r.2)
  else (None, m).

(** Two managers that hold the same orders and the same counter values. *)
Definition same_book (m1 m2 : t) : Prop :=
  orders_ m1 = orders_ m2 ∧
  total_orders_added_ m1 = total_orders_added_ m2 ∧
  total_orders_cancelled_ m1 = total_orders_cancelled_ m2.

(** What [snapshot_dirty_] promises: a clean cache lists the keys of
    [orders_] in iteration order. *)
Definition cache_valid (m : t) : Prop :=
  snapshot_dirty_ m = false → order_ptrs_ m = (map_to_list (orders_ m)).*1.

(** What the two statistics counters promise about [size()]. *)
Definition counters_agree (m : t) : Prop :=
  size m = wrap64 (total_orders_added_ m - total_orders_cancelled_ m).

(** The total quantity of the orders in the book. *)
Definition resting_quantity (m : t) : N :=
  map_fold (λ _ o acc, (Order.quantity o + acc)%N) 0%N (orders_ m).

(** The total quantity of a list of submitted orders. *)
Definition submitted_quantity (orders : list Order.t) : N :=
  foldr (λ o acc, (Order.quantity o + acc)%N) 0%N orders.

End OrderManager.

(** ** [main.cpp]

    The random engine, the stream extractions [iss >> ...] and the clock
    belong to the C++ library: the drawn values and the extraction results
    are parameters, and the timings written by [Timer] are left out of the
    console text. *)

Module Main.

(** One round of [price_dist(gen)], [qty_dist(gen)], [side_dist(gen)]. *)
Definition draw : Type := float * N * N.

(** The loop of [generate_random_orders] from index [i] on: order [i + 1]
    takes the next drawn values; the result of [add_order] is dropped. *)
Fixpoint generate_from (i : N) (draws : list draw) (manager : OrderManager.t)
  : OrderManager.t :=
  match draws with
  | [] => manager
  | (price, qty, side) :: rest =>
      generate_from (i + 1) rest
        (OrderManager.add_order (Order.mk (i + 1) price qty side) manager).2
  end.

(** [count] is the number of drawn rounds. *)
Definition generate_random_orders (draws : list draw) (manager : OrderManager.t)
  : OrderManager.t :=
  generate_from 0 draws manager.

(** [for (size_t i = 1; i <= n; ++i) manager.cancel_order(i);] *)
Definition cancel_first (n : nat) (manager : OrderManager.t) : OrderManager.t :=
  foldl (λ m i, (OrderManager.cancel_order (N.of_nat i) m).2) manager (seq 1 n).

(** [run_benchmark]: the snapshot text, the statistics text and the manager
    at the end. *)
Definition run_benchmark (draws : list draw) (manager : OrderManager.t)
  : string * string * OrderManager.t :=
  let m1 := OrderManager.clear manager in
  let m2 := generate_random_orders draws m1 in
  let shot := OrderManager.print_snapshot m2 in
  let m4 := cancel_first (length draws `min` 1000) shot.2 in
  (shot.1, OrderManager.print_stats m4, m4).

(** What one pass of the loop of [interactive_mode] does with a command. *)
Inductive outcome : Type :=
| Break
| Next (written : list string) (manager : OrderManager.t).

Definition say (message : string) : list string := [Std.endl_text [message]].

(** [extract_add] stands for [iss >> cmd >> id >> price >> qty >> side] and
    [extract_cancel] for [iss >> cmd >> id]: the values read, or [None] when
    the stream has failed. *)
Definition dispatch
    (extract_add : string → option (N * float * N * N))
    (extract_cancel : string → option N)
    (command : string) (manager : OrderManager.t) : outcome :=
  if decide (command = "quit"%string ∨ command = "exit"%string) then Break
  else if decide (command = "help"%string) then
    Next (say "Commands: add, cancel, snapshot, stats, clear, quit") manager
  else if decide (command = "snapshot"%string) then
    let r := OrderManager.print_snapshot manager in Next [r.1] r.2
  else if decide (command = "stats"%string) then
    Next [OrderManager.print_stats manager] manager
  else if decide (command = "clear"%string) then
    Next (say "All orders cleared.") (OrderManager.clear manager)
  else if decide (String.substring 0 3 command = "add"%string) then
    match extract_add command with
    | Some (id, price, qty, side) =>
        let r := OrderManager.add_order (Order.mk id price qty side) manager in
        Next (say (if r.1 then "Order added successfully."
                   else "Failed to add order (ID already exists).")) r.2
    | None => Next (say "Usage: add <id> <price> <qty> <side>") manager
    end
  else if decide (String.substring 0 6 command = "cancel"%string) then
    match extract_cancel command with
    | Some id =>
        let r := OrderManager.cancel_order id manager in
        Next (say (if r.1 then "Order cancelled successfully."
                   else "Order not found.")) r.2
    | None => Next (say "Usage: cancel <id>") manager
    end
  else Next (say "Unknown command. Type 'help' for available commands.") manager.

(** The [while (true)] loop, [fuel] passes at most: [None] when the loop is
    still running after them, otherwise what was written and the manager
    at the [break]. *)
Fixpoint interactive_loop
    (extract_add : string → option (N * float * N * N))
    (extract_cancel : string → option N)
    (fuel : nat) (cin : Std.istream) (command : string)
    (manager : OrderManager.t) (written : list string)
  : option (list string * OrderManager.t) :=
  match fuel with
  | O => None
  | S fuel' =>
      let prompted := written ++ [String Std.newline "> "] in
      let r := Std.getline cin command in
      match dispatch extract_add extract_cancel r.1 manager with
      | Break => Some (prompted, manager)
      | Next text manager' =>
          interactive_loop extract_add extract_cancel fuel' r.2 r.1 manager'
            (prompted ++ text)
      end
  end.

(** [interactive_mode] on the text typed into [std::cin]. *)
Definition interactive_mode
    (extract_add : string → option (N * float * N * N))
    (extract_cancel : string → option N)
    (fuel : nat) (input : string) (manager : OrderManager.t)
  : option (list string * OrderManager.t) :=
  interactive_loop extract_add extract_cancel fuel
    {| Std.pending := input; Std.good := true |} ""%string manager
    (say "Interactive Mode - Type 'help' for commands").

(** The call of the manager a command line stands for, if any. *)
Definition command_call
    (extract_add : string → option (N * float * N * N))
    (extract_cancel : string → option N)
    (command : string) : option OrderManager.call :=
  if decide (command = "quit"%string ∨ command = "exit"%string) then None
  else if decide (command = "help"%string) then None
  else if decide (command = "snapshot"%string) then Some OrderManager.PrintSnapshot
  else if decide (command = "stats"%string) then None
  else if decide (command = "clear"%string) then Some OrderManager.Clear
  else if decide (String.substring 0 3 command = "add"%string) then
    (λ v : N * float * N * N,
       OrderManager.AddOrder (Order.mk v.1.1.1 v.1.1.2 v.1.2 v.2))
      <$> extract_add command
  else if decide (String.substring 0 6 command = "cancel"%string) then
    OrderManager.CancelOrder <$> extract_cancel command
  else None.

End Main.

(** ** Fixtures: the orders of the specification's scenarios and of the
    repository's tests *)

Module Fixture.

Definition buy_1 : Order.t := Order.mk 1 100 50 0.
Definition sell_2 : Order.t := Order.mk 2 100 30 1.

(** [Order(1, 150.50, 100, 0)], [Order(2, 151.25, 200, 1)] and the
    duplicate [Order(1, 160.00, 50, 0)] of [tests/order_test.cpp]. *)
Definition order1 : Order.t := Order.mk 1 150.5 100 0.
Definition order2 : Order.t := Order.mk 2 151.25 200 1.
Definition order1_again : Order.t := Order.mk 1 160 50 0.

(** An order with no quantity and a negative price. *)
Definition worthless : Order.t := Order.mk 7 (-5) 0 0.

Definition two_orders : OrderManager.t :=
  (OrderManager.add_order order2 (OrderManager.add_order order1 OrderManager.new).2).2.

Definition id_first_file : string :=
  Std.endl_text ["1,100,10,0,ID"]%string.
Definition id_second_file : string :=
  Std.endl_text [""; "1,100,10,0,ID"]%string.

(** Two buy orders at one price, an order with a thirteen-digit id and an
    order priced at infinity (what [std::stod] reads from "inf"). *)
Definition tie_first : Order.t := Order.mk 1 100 10 0.
Definition tie_second : Order.t := Order.mk 2 100 10 0.
Definition wide_id : Order.t := Order.mk 1000000000000 100 10 0.
Definition priceless : Order.t := Order.mk 3 infinity 10 1.

(** The file written by the test [csv_parsing]. *)
Definition test_file : string :=
  Std.endl_text ["id,price,quantity,side"; "1,150.50,100,0"; "2,151.25,200,1"]%string.


(** A record as the test writes it: four fields between commas. *)
Definition csv_line (id_text price_text qty_text side_text : string) : string :=
  (id_text ++ "," ++ price_text ++ "," ++ qty_text ++ "," ++ side_text)%string.

(** The record of an order whose price is written as [price_text]. *)
Definition csv_record (record : Order.t * string) : string :=
  csv_line (Std.put_unsigned (Order.id record.1)) record.2
           (Std.put_unsigned (Order.quantity record.1))
           (Std.put_unsigned (Order.side record.1)).

Definition test_records : list (Order.t * string) :=
  [(order1, "150.50"%string); (order2, "151.25"%string)].

(** Three rounds of drawn values, and extractions for the interactive
    commands of the examples. *)
Definition three_draws : list Main.draw :=
  [(150.5%float, 100%N, 0%N); (151.25%float, 200%N, 1%N); (100%float, 10%N, 0%N)].

Definition extract_add_sample (command : string) : option (N * float * N * N) :=
  if decide (command = "add 1 150.50 100 0"%string) then Some (1%N, 150.5%float, 100%N, 0%N)
  else if decide (command = "add 2 151.25 200 1"%string) then Some (2%N, 151.25%float, 200%N, 1%N)
  else None.

Definition extract_cancel_sample (command : string) : option N :=
  if decide (command = "cancel 1"%string) then Some 1%N else None.

End Fixture.

(** * Properties *)

(** ** The repository's tests, run on the model *)

Example test_ordermanager_basic :
  OrderManager.empty OrderManager.new = true ∧ OrderManager.size OrderManager.new = 0.
Proof. done. Qed.

Example test_ordermanager_add_orders :
  let r1 := OrderManager.add_order Fixture.order1 OrderManager.new in
  let r2 := OrderManager.add_order Fixture.order2 r1.2 in
  let r3 := OrderManager.add_order Fixture.order1_again r2.2 in
  r1.1 = true ∧ r2.1 = true ∧ r3.1 = false ∧ OrderManager.size r3.2 = 2.
Proof. vm_compute. done. Qed.

Example test_ordermanager_cancel_orders :
  let r1 := OrderManager.cancel_order 1 Fixture.two_orders in
  let r2 := OrderManager.cancel_order 1 r1.2 in
  let r3 := OrderManager.cancel_order 999 r2.2 in
  r1.1 = true ∧ r2.1 = false ∧ r3.1 = false ∧ OrderManager.size r3.2 = 1.
Proof. vm_compute. done. Qed.

Example test_ordermanager_get_order :
  OrderManager.get_order 1 Fixture.two_orders = Some Fixture.order1 ∧
  OrderManager.get_order 999 Fixture.two_orders = None.
Proof. vm_compute. done. Qed.

Example test_ordermanager_clear :
  OrderManager.size Fixture.two_orders = 2 ∧
  OrderManager.empty (OrderManager.clear Fixture.two_orders) = true ∧
  OrderManager.size (OrderManager.clear Fixture.two_orders) = 0.
Proof. vm_compute. done. Qed.

Example test_csv_parsing :
  let r := OrderManager.load_from_csv Std.stod_decimal (Some Fixture.test_file)
             OrderManager.new in
  r.1 = Some 2 ∧ OrderManager.size r.2 = 2 ∧ r.2 = Fixture.two_orders.
Proof. vm_compute. done. Qed.

(** ** Adding and cancelling *)

Section BookOperations.

Implicit Types (m : OrderManager.t) (o : Order.t) (k : N).

Lemma add_order_fresh m o :
  OrderManager.get_order (Order.id o) m = None →
  (OrderManager.add_order o m).1 = true ∧
  OrderManager.orders_ (OrderManager.add_order o m).2
    = <[Order.id o := o]> (OrderManager.orders_ m).
Proof.
  unfold OrderManager.get_order, OrderManager.add_order. intros ->. done.
Qed.

Lemma cancel_order_live m k o :
  OrderManager.get_order k m = Some o →
  (OrderManager.cancel_order k m).1 = true ∧
  OrderManager.orders_ (OrderManager.cancel_order k m).2
    = delete k (OrderManager.orders_ m).
Proof.
  unfold OrderManager.get_order, OrderManager.cancel_order. intros ->. done.
Qed.

Lemma cancel_order_absent m k :
  OrderManager.get_order k m = None → OrderManager.cancel_order k m = (false, m).
Proof.
  unfold OrderManager.get_order, OrderManager.cancel_order. intros ->. done.
Qed.

(** C1, as the specification states it, fails: after the two submissions
    order 1 does not rest with quantity 20 while order 2 is gone. *)
Lemma scenario_no_fill :
  let m := (OrderManager.add_order Fixture.sell_2
              (OrderManager.add_order Fixture.buy_1 OrderManager.new).2).2 in
  ¬ (Order.quantity <$> OrderManager.get_order 1 m = Some 20%N ∧
     OrderManager.get_order 2 m = None).
Proof. intros m [H _]. vm_compute in H. discriminate H. Qed.

(** C1, amended: from an empty manager, adding the buy order (id 1, price
    100, quantity 50) and then the sell order (id 2, price 100, quantity 30)
    succeeds twice; [add_order] matches nothing, so both orders rest exactly
    as submitted (quantities 50 and 30, 80 in total) and the book holds two
    orders. *)
Theorem scenario_both_rest :
  let r1 := OrderManager.add_order Fixture.buy_1 OrderManager.new in
  let r2 := OrderManager.add_order Fixture.sell_2 r1.2 in
  r1.1 = true ∧ r2.1 = true ∧
  OrderManager.get_order 1 r2.2 = Some Fixture.buy_1 ∧
  OrderManager.get_order 2 r2.2 = Some Fixture.sell_2 ∧
  OrderManager.size r2.2 = 2 ∧
  OrderManager.resting_quantity r2.2 = 80%N.
Proof. vm_compute. repeat split; reflexivity. Qed.

(** C3: adding an order whose id is live returns [false] (the code's
    report of a duplicate id) and the manager is the one it was: the
    stored order keeps its price, quantity and side, and every lookup
    answers as before. *)
Theorem add_order_duplicate_rejected m o old :
  OrderManager.get_order (Order.id o) m = Some old →
  OrderManager.add_order o m = (false, m) ∧
  OrderManager.get_order (Order.id o) (OrderManager.add_order o m).2 = Some old ∧
  ∀ k, OrderManager.get_order k (OrderManager.add_order o m).2
       = OrderManager.get_order k m.
Proof.
  intros Hlive.
  assert (OrderManager.add_order o m = (false, m)) as ->.
  { unfold OrderManager.add_order. unfold OrderManager.get_order in Hlive.
    by rewrite Hlive. }
  done.
Qed.

Lemma add_order_duplicate_rejected_witness :
  OrderManager.add_order Fixture.order1_again Fixture.two_orders
    = (false, Fixture.two_orders) ∧
  OrderManager.get_order 1
    (OrderManager.add_order Fixture.order1_again Fixture.two_orders).2
    = Some Fixture.order1 ∧
  ∀ k, OrderManager.get_order k
         (OrderManager.add_order Fixture.order1_again Fixture.two_orders).2
       = OrderManager.get_order k Fixture.two_orders.
Proof.
  apply (add_order_duplicate_rejected Fixture.two_orders Fixture.order1_again
           Fixture.order1).
  reflexivity.
Defined.

(** C4, as the specification states it, fails: an order with quantity 0
    and price -5 is accepted and stored. *)
Lemma add_order_accepts_worthless :
  (OrderManager.add_order Fixture.worthless OrderManager.new).1 = true ∧
  OrderManager.get_order 7
    (OrderManager.add_order Fixture.worthless OrderManager.new).2
    = Some Fixture.worthless ∧
  Order.quantity Fixture.worthless = 0%N ∧
  PrimFloat.leb (Order.price Fixture.worthless) 0 = true.
Proof. vm_compute. repeat split; reflexivity. Qed.

(** C4, amended: [add_order] checks neither price nor quantity.  An order
    whose id is not live is accepted whatever its price and quantity are
    (zero quantity, zero or negative price included): the call returns
    [true], the order is stored as given and the book grows by that one
    entry. *)
Theorem add_order_no_validation m o :
  OrderManager.get_order (Order.id o) m = None →
  (OrderManager.add_order o m).1 = true ∧
  OrderManager.get_order (Order.id o) (OrderManager.add_order o m).2 = Some o ∧
  ∀ k, k ≠ Order.id o →
       OrderManager.get_order k (OrderManager.add_order o m).2
       = OrderManager.get_order k m.
Proof.
  intros Hfresh. destruct (add_order_fresh m o Hfresh) as [Hr Ho].
  split; [done|]. unfold OrderManager.get_order. rewrite Ho. split.
  - apply lookup_insert_eq.
  - intros k Hk. by apply lookup_insert_ne.
Qed.

Lemma add_order_no_validation_witness :
  (OrderManager.add_order Fixture.worthless Fixture.two_orders).1 = true ∧
  OrderManager.get_order 7
    (OrderManager.add_order Fixture.worthless Fixture.two_orders).2
    = Some Fixture.worthless ∧
  ∀ k, k ≠ 7%N →
       OrderManager.get_order k
         (OrderManager.add_order Fixture.worthless Fixture.two_orders).2
       = OrderManager.get_order k Fixture.two_orders.
Proof.
  apply (add_order_no_validation Fixture.two_orders Fixture.worthless).
  reflexivity.
Defined.

(** C5: cancelling an id that is not in the book (never added, already
    cancelled) returns [false] and leaves the manager as it was; cancelling
    a live id returns [true] and removes that entry and nothing else; a
    second cancel of the same id finds nothing. *)
Theorem cancel_order_exact m k :
  (OrderManager.get_order k m = None →
   OrderManager.cancel_order k m = (false, m)) ∧
  (∀ o, OrderManager.get_order k m = Some o →
     (OrderManager.cancel_order k m).1 = true ∧
     OrderManager.orders_ (OrderManager.cancel_order k m).2
       = delete k (OrderManager.orders_ m) ∧
     OrderManager.get_order k (OrderManager.cancel_order k m).2 = None ∧
     (∀ j, j ≠ k →
        OrderManager.get_order j (OrderManager.cancel_order k m).2
        = OrderManager.get_order j m) ∧
     S (base.size (OrderManager.orders_ (OrderManager.cancel_order k m).2))
       = base.size (OrderManager.orders_ m)) ∧
  OrderManager.cancel_order k (OrderManager.cancel_order k m).2
    = (false, (OrderManager.cancel_order k m).2).
Proof.
  split; [apply cancel_order_absent|]. split.
  - intros o Hlive. destruct (cancel_order_live m k o Hlive) as [Hr Ho].
    unfold OrderManager.get_order in *. rewrite Ho.
    split; [done|]. split; [done|]. split; [apply lookup_delete_eq|]. split.
    + intros j Hj. by apply lookup_delete_ne.
    + rewrite (map_size_delete_Some k (OrderManager.orders_ m)); [|by eexists].
      assert (base.size (OrderManager.orders_ m) ≠ 0%nat); [|lia].
      intros Hz. apply map_size_empty_inv in Hz. rewrite Hz in Hlive.
      by rewrite lookup_empty in Hlive.
  - apply cancel_order_absent.
    destruct (OrderManager.get_order k m) as [o|] eqn:Hk.
    + destruct (cancel_order_live m k o Hk) as [_ Ho].
      unfold OrderManager.get_order. rewrite Ho. apply lookup_delete_eq.
    + by rewrite (cancel_order_absent m k Hk).
Qed.

Lemma cancel_order_exact_witness :
  OrderManager.cancel_order 999 Fixture.two_orders = (false, Fixture.two_orders) ∧
  (OrderManager.cancel_order 1 Fixture.two_orders).1 = true ∧
  OrderManager.get_order 1 (OrderManager.cancel_order 1 Fixture.two_orders).2 = None ∧
  OrderManager.get_order 2 (OrderManager.cancel_order 1 Fixture.two_orders).2
    = Some Fixture.order2.
Proof.
  destruct (cancel_order_exact Fixture.two_orders 999) as [Habsent _].
  destruct (cancel_order_exact Fixture.two_orders 1) as (_ & Hlive & _).
  destruct (Hlive Fixture.order1 eq_refl) as (Hr & _ & Hgone & Hothers & _).
  split; [exact (Habsent eq_refl)|]. split; [exact Hr|]. split; [exact Hgone|].
  rewrite (Hothers 2%N); [reflexivity | discriminate].
Defined.

(** C6: for every manager and every order whose id is not live (whatever
    its price and quantity), [add_order] followed at once by [cancel_order]
    of the same id succeeds twice and gives back the book as it was: the
    same map of resting orders, so every lookup answers as before and the
    size and the total quantity are the same.  (The two statistics
    counters have each advanced by one.) *)
Theorem add_then_cancel_restores_book m o :
  OrderManager.get_order (Order.id o) m = None →
  let r1 := OrderManager.add_order o m in
  let r2 := OrderManager.cancel_order (Order.id o) r1.2 in
  r1.1 = true ∧ r2.1 = true ∧
  OrderManager.orders_ r2.2 = OrderManager.orders_ m ∧
  (∀ k, OrderManager.get_order k r2.2 = OrderManager.get_order k m) ∧
  OrderManager.size r2.2 = OrderManager.size m ∧
  OrderManager.resting_quantity r2.2 = OrderManager.resting_quantity m.
Proof.
  intros Hfresh r1 r2.
  destruct (add_order_fresh m o Hfresh) as [Hr1 Ho1].
  assert (OrderManager.get_order (Order.id o) r1.2 = Some o) as Hlive.
  { unfold OrderManager.get_order. subst r1. rewrite Ho1. apply lookup_insert_eq. }
  destruct (cancel_order_live _ _ _ Hlive) as [Hr2 Ho2].
  assert (OrderManager.orders_ r2.2 = OrderManager.orders_ m) as Hbook.
  { subst r2 r1. rewrite Ho2, Ho1. by apply delete_insert_id. }
  split; [done|]. split; [done|]. split; [done|].
  unfold OrderManager.get_order, OrderManager.size, OrderManager.resting_quantity.
  rewrite Hbook. split; [done|]. split; done.
Qed.

Lemma add_then_cancel_restores_book_witness :
  let r1 := OrderManager.add_order Fixture.worthless Fixture.two_orders in
  let r2 := OrderManager.cancel_order 7 r1.2 in
  r1.1 = true ∧ r2.1 = true ∧
  OrderManager.orders_ r2.2 = OrderManager.orders_ Fixture.two_orders ∧
  (∀ k, OrderManager.get_order k r2.2 = OrderManager.get_order k Fixture.two_orders) ∧
  OrderManager.size r2.2 = OrderManager.size Fixture.two_orders ∧
  OrderManager.resting_quantity r2.2 = OrderManager.resting_quantity Fixture.two_orders.
Proof.
  apply (add_then_cancel_restores_book Fixture.two_orders Fixture.worthless).
  reflexivity.
Defined.

End BookOperations.

(** ** Invariants of runs *)

Section Runs.

Variable stod : string → option float.

Implicit Types (m : OrderManager.t) (o : Order.t) (k : N).

(** A property kept by the four mutators is kept by every call, since
    loading a file only adds orders and printing only rebuilds the cache. *)
Section Preservation.

Variable P : OrderManager.t → Prop.
Hypothesis P_add : ∀ m o, P m → P (OrderManager.add_order o m).2.
Hypothesis P_cancel : ∀ m k, P m → P (OrderManager.cancel_order k m).2.
Hypothesis P_rebuild : ∀ m, P m → P (OrderManager.rebuild_snapshot_cache m).
Hypothesis P_clear : ∀ m, P m → P (OrderManager.clear m).

Lemma load_line_preserves line (acc : Z * OrderManager.t) :
  P acc.2 → P (OrderManager.load_line stod line acc).2.
Proof.
  intros Hacc. unfold OrderManager.load_line.
  destruct (OrderManager.parse_csv_line stod line) as [o|]; [|done].
  specialize (P_add acc.2 o Hacc).
  by destruct (OrderManager.add_order o acc.2) as [added m'].
Qed.

Lemma load_rest_preserves lines (acc : Z * OrderManager.t) :
  P acc.2 → P (OrderManager.load_rest stod lines acc).2.
Proof.
  revert acc. induction lines as [|line lines IH]; intros acc Hacc; [done|].
  unfold OrderManager.load_rest. cbn [foldl]. apply IH.
  case_decide; [done|]. by apply load_line_preserves.
Qed.

Lemma load_from_csv_preserves file m :
  P m → P (OrderManager.load_from_csv stod file m).2.
Proof.
  intros Hm. destruct file as [content|]; [|done].
  unfold OrderManager.load_from_csv, OrderManager.load_lines. cbn [snd].
  apply load_rest_preserves.
  destruct (OrderManager.looks_like_header _); [done|].
  by apply load_line_preserves.
Qed.

Lemma step_preserves m c : P m → P (OrderManager.step stod m c).
Proof.
  intros Hm. destruct c; cbn [OrderManager.step]; auto.
  - unfold OrderManager.print_snapshot. cbn [snd]. auto.
  - by apply load_from_csv_preserves.
Qed.

Lemma run_preserves calls m : P m → P (OrderManager.run stod calls m).
Proof.
  revert m. induction calls as [|c calls IH]; intros m Hm; [done|].
  unfold OrderManager.run. cbn [foldl]. apply IH. by apply step_preserves.
Qed.

End Preservation.

Lemma wrap64_succ_l a c n :
  OrderManager.wrap64 (Z.of_nat n) = OrderManager.wrap64 (a - c) →
  OrderManager.wrap64 (Z.of_nat (S n))
  = OrderManager.wrap64 (OrderManager.wrap64 (a + 1) - c).
Proof.
  unfold OrderManager.wrap64. intros H.
  rewrite Zminus_mod_idemp_l.
  replace (Z.of_nat (S n)) with (Z.of_nat n + 1) by lia.
  replace (a + 1 - c) with (a - c + 1) by lia.
  rewrite <- (Zplus_mod_idemp_l (Z.of_nat n)), H, Zplus_mod_idemp_l. done.
Qed.

Lemma wrap64_succ_r a c n :
  OrderManager.wrap64 (Z.of_nat (S n)) = OrderManager.wrap64 (a - c) →
  OrderManager.wrap64 (Z.of_nat n)
  = OrderManager.wrap64 (a - OrderManager.wrap64 (c + 1)).
Proof.
  unfold OrderManager.wrap64. intros H.
  rewrite Zminus_mod_idemp_r.
  replace (Z.of_nat n) with (Z.of_nat (S n) - 1) by lia.
  replace (a - (c + 1)) with (a - c - 1) by lia.
  rewrite <- (Zminus_mod_idemp_l (Z.of_nat (S n))), H, Zminus_mod_idemp_l. done.
Qed.

Lemma counters_agree_add m o :
  OrderManager.counters_agree m → OrderManager.counters_agree (OrderManager.add_order o m).2.
Proof.
  unfold OrderManager.counters_agree, OrderManager.size, OrderManager.add_order. intros H.
  destruct (OrderManager.orders_ m !! Order.id o) eqn:Hk; [done|]. cbn.
  rewrite map_size_insert_None by done.
  by apply wrap64_succ_l.
Qed.

Lemma counters_agree_cancel m k :
  OrderManager.counters_agree m → OrderManager.counters_agree (OrderManager.cancel_order k m).2.
Proof.
  unfold OrderManager.counters_agree, OrderManager.size, OrderManager.cancel_order. intros H.
  destruct (OrderManager.orders_ m !! k) eqn:Hk; [|done]. cbn.
  apply wrap64_succ_r.
  rewrite <- H. f_equal. f_equal.
  rewrite (map_size_delete_Some k (OrderManager.orders_ m)); [|by eexists].
  assert (base.size (OrderManager.orders_ m) ≠ 0%nat); [|lia].
  intros Hz. apply map_size_empty_inv in Hz. rewrite Hz in Hk.
  by rewrite lookup_empty in Hk.
Qed.

Lemma counters_agree_rebuild m :
  OrderManager.counters_agree m → OrderManager.counters_agree (OrderManager.rebuild_snapshot_cache m).
Proof.
  unfold OrderManager.counters_agree, OrderManager.size, OrderManager.rebuild_snapshot_cache.
  by destruct (OrderManager.snapshot_dirty_ m).
Qed.

(** C10: from a fresh manager, after any sequence of calls of the public
    interface ([add_order], [cancel_order], [clear], and also [get_order],
    [print_snapshot] and [load_from_csv]), [size()] equals the added counter
    minus the cancelled counter, in the 64-bit unsigned arithmetic of the
    counters. *)
Theorem size_is_added_minus_cancelled (calls : list OrderManager.call) :
  let m := OrderManager.run stod calls OrderManager.new in
  OrderManager.size m
  = OrderManager.wrap64
      (OrderManager.total_orders_added_ m - OrderManager.total_orders_cancelled_ m).
Proof.
  apply (run_preserves OrderManager.counters_agree); try done.
  - apply counters_agree_add.
  - apply counters_agree_cancel.
  - apply counters_agree_rebuild.
Qed.

(** ** Quantity conservation *)

Lemma resting_quantity_add m o :
  OrderManager.get_order (Order.id o) m = None →
  OrderManager.resting_quantity (OrderManager.add_order o m).2
  = (Order.quantity o + OrderManager.resting_quantity m)%N.
Proof.
  intros Hfresh. destruct (add_order_fresh m o Hfresh) as [_ Ho].
  unfold OrderManager.resting_quantity. rewrite Ho.
  rewrite map_fold_insert_L; [done| |done]. intros. lia.
Qed.

Lemma run_adds_fresh (orders : list Order.t) m :
  NoDup (Order.id <$> orders) →
  (∀ o, o ∈ orders → OrderManager.get_order (Order.id o) m = None) →
  let m' := OrderManager.run stod (OrderManager.AddOrder <$> orders) m in
  OrderManager.resting_quantity m'
  = (OrderManager.resting_quantity m + OrderManager.submitted_quantity orders)%N ∧
  base.size (OrderManager.orders_ m')
  = (base.size (OrderManager.orders_ m) + length orders)%nat.
Proof.
  revert m. induction orders as [|o orders IH]; intros m Hnodup Hfresh.
  - cbn. split; lia.
  - rewrite fmap_cons in Hnodup. apply NoDup_cons in Hnodup as [Hhead Hnodup].
    assert (OrderManager.get_order (Order.id o) m = None) as Ho
      by (apply Hfresh; left).
    destruct (add_order_fresh m o Ho) as [_ Hbook].
    cbn [fmap list_fmap OrderManager.run foldl OrderManager.step].
    destruct (IH (OrderManager.add_order o m).2 Hnodup) as [Hq Hn].
    { intros o' Ho'. unfold OrderManager.get_order. rewrite Hbook.
      rewrite lookup_insert_ne.
      - apply Hfresh. by right.
      - intros Heq. apply Hhead. rewrite Heq. by apply list_elem_of_fmap_2. }
    unfold OrderManager.run in Hq, Hn. split.
    + rewrite Hq, (resting_quantity_add m o Ho).
      change (OrderManager.submitted_quantity (o :: orders))
        with (Order.quantity o + OrderManager.submitted_quantity orders)%N.
      lia.
    + rewrite Hn, Hbook, map_size_insert_None by done. cbn [length]. lia.
Qed.

(** C2: for every sequence of submissions with pairwise distinct ids to an
    empty manager (positive price and quantity are not needed), the
    quantities resting in the book add up to the quantities submitted.
    [add_order] returns a [bool] and reports no fill, so the filled
    quantity of the balance is the empty sum; every submitted order
    rests. *)
Theorem quantity_conservation (orders : list Order.t) :
  NoDup (Order.id <$> orders) →
  let m := OrderManager.run stod (OrderManager.AddOrder <$> orders) OrderManager.new in
  OrderManager.resting_quantity m = OrderManager.submitted_quantity orders ∧
  base.size (OrderManager.orders_ m) = length orders.
Proof.
  intros Hnodup.
  destruct (run_adds_fresh orders OrderManager.new Hnodup) as [Hq Hn].
  { intros o _. apply lookup_empty. }
  cbn zeta. rewrite Hq, Hn. split; [|done].
  unfold OrderManager.resting_quantity. cbn [OrderManager.orders_ OrderManager.new].
  rewrite map_fold_empty. lia.
Qed.

End Runs.

Lemma quantity_conservation_witness :
  let m := OrderManager.run Std.stod_decimal
             (OrderManager.AddOrder <$> [Fixture.order1; Fixture.order2])
             OrderManager.new in
  OrderManager.resting_quantity m
  = OrderManager.submitted_quantity [Fixture.order1; Fixture.order2] ∧
  base.size (OrderManager.orders_ m) = 2%nat.
Proof.
  apply (quantity_conservation Std.stod_decimal [Fixture.order1; Fixture.order2]).
  apply NoDup_cons. split; [|apply NoDup_singleton].
  intros H%list_elem_of_singleton. discriminate H.
Defined.

(** ** Numbers as text *)

Section Numerals.

Implicit Types (s ws ds zs rest : string) (n v acc : N) (c : ascii).

Lemma string_app_cons (c : ascii) (s t : string) :
  (String c s ++ t)%string = String c (s ++ t)%string.
Proof. done. Qed.

Lemma string_app_nil_r (s : string) : (s ++ "")%string = s.
Proof. induction s as [|c s IH]; [done|]. by rewrite string_app_cons, IH. Qed.

Lemma string_app_assoc (s1 s2 s3 : string) :
  ((s1 ++ s2) ++ s3)%string = (s1 ++ (s2 ++ s3))%string.
Proof. induction s1 as [|c s1 IH]; [done|]. by rewrite !string_app_cons, IH. Qed.

Lemma pretty_N_char_digit (d : N) :
  (d < 10)%N →
  Std.isdigit (pretty_N_char d) = true ∧ Std.digit_value (pretty_N_char d) = d.
Proof.
  intros Hd.
  assert (d = 0 ∨ d = 1 ∨ d = 2 ∨ d = 3 ∨ d = 4 ∨
          d = 5 ∨ d = 6 ∨ d = 7 ∨ d = 8 ∨ d = 9)%N as Hcases by lia.
  repeat destruct Hcases as [->|Hcases]; try done. by subst.
Qed.

Lemma all_digits_pretty_go (x : N) s :
  Std.all_digits (pretty_N_go x s) = Std.all_digits s.
Proof.
  revert s. induction (N.lt_wf_0 x) as [x _ IH]; intros s.
  destruct (decide (x = 0%N)) as [->|Hx]; [by rewrite pretty_N_go_0|].
  rewrite pretty_N_go_step by lia. rewrite IH by (apply N.div_lt; lia).
  cbn [Std.all_digits].
  by destruct (pretty_N_char_digit (x `mod` 10)%N ltac:(apply N.mod_lt; lia))
    as [-> _].
Qed.

Lemma pretty_N_go_length_ge (x : N) s :
  (String.length s ≤ String.length (pretty_N_go x s))%nat.
Proof.
  revert s. induction (N.lt_wf_0 x) as [x _ IH]; intros s.
  destruct (decide (x = 0%N)) as [->|Hx]; [by rewrite pretty_N_go_0|].
  rewrite pretty_N_go_step by lia.
  etrans; [|apply IH, N.div_lt; lia]. cbn. lia.
Qed.

Lemma read_digits_pretty_go (x : N) s (acc : N) :
  ∃ k : N, Std.read_digits acc (pretty_N_go x s)
           = Std.read_digits (acc * 10 ^ k + x) s.
Proof.
  revert s. induction (N.lt_wf_0 x) as [x _ IH]; intros s.
  destruct (decide (x = 0%N)) as [->|Hx].
  { exists 0%N. rewrite pretty_N_go_0. f_equal. cbn. lia. }
  rewrite pretty_N_go_step by lia.
  destruct (IH (x `div` 10)%N ltac:(apply N.div_lt; lia)
              (String (pretty_N_char (x `mod` 10)) s)) as [k Hk].
  exists (k + 1)%N. rewrite Hk. cbn [Std.read_digits].
  destruct (pretty_N_char_digit (x `mod` 10)%N ltac:(apply N.mod_lt; lia))
    as [-> ->].
  f_equal. rewrite N.pow_add_r, N.pow_1_r.
  pose proof (N.div_mod x 10 ltac:(lia)). lia.
Qed.

(** The decimal text of a number is one or more digits that read back as
    the number. *)
Lemma put_unsigned_digits n :
  Std.all_digits (Std.put_unsigned n) = true ∧
  Std.put_unsigned n ≠ ""%string ∧
  Std.read_digits 0 (Std.put_unsigned n) = n.
Proof.
  unfold Std.put_unsigned, pretty, pretty_N. case_decide as Hn; [by subst|].
  split; [by rewrite all_digits_pretty_go|]. split.
  - intros Hempty.
    rewrite pretty_N_go_step in Hempty by lia.
    pose proof (pretty_N_go_length_ge (n `div` 10)
                  (String (pretty_N_char (n `mod` 10)) "")) as Hlen.
    rewrite Hempty in Hlen. cbn in Hlen. lia.
  - destruct (read_digits_pretty_go n "" 0) as [k ->]. cbn. lia.
Qed.




Lemma skip_spaces_head s c r :
  Std.skip_spaces s = String c r → Std.isspace c = false.
Proof.
  induction s as [|c' s IH]; [done|]. cbn [Std.skip_spaces].
  destruct (Std.isspace c') eqn:Hc; [done|]. by intros [= <- <-].
Qed.





Lemma all_digits_app s1 s2 :
  Std.all_digits (s1 ++ s2)%string = Std.all_digits s1 && Std.all_digits s2.
Proof.
  induction s1 as [|c s1 IH]; [done|].
  rewrite string_app_cons. cbn [Std.all_digits]. rewrite IH. by rewrite andb_assoc.
Qed.








End Numerals.

(** ** Loading a CSV file *)

Section CsvLoading.

Variable stod : string → option float.

Implicit Types (m : OrderManager.t) (o : Order.t) (line : string).

Lemma getline_all_from_line (delim : ascii) (line cur rest : string) :
  Std.has_char delim line = false →
  Std.getline_all_from delim cur (line ++ String delim rest)
  = (cur ++ line)%string :: Std.getline_all_from delim "" rest.
Proof.
  revert cur. induction line as [|c line IH]; intros cur Hfree.
  - change (Std.getline_all_from delim cur (String delim rest)
            = (cur ++ "")%string :: Std.getline_all_from delim "" rest).
    cbn [Std.getline_all_from]. by rewrite Ascii.eqb_refl, string_app_nil_r.
  - cbn in Hfree. apply orb_false_iff in Hfree as [Hc Hfree].
    rewrite string_app_cons. cbn [Std.getline_all_from]. rewrite Hc.
    rewrite (IH _ Hfree). by rewrite string_app_assoc.
Qed.

Lemma getline_all_from_last (delim : ascii) (cur s : string) :
  Std.has_char delim s = false →
  Std.getline_all_from delim cur s
  = if decide ((cur ++ s)%string = ""%string) then [] else [(cur ++ s)%string].
Proof.
  revert cur. induction s as [|c s IH]; intros cur Hfree.
  - cbn. by rewrite string_app_nil_r.
  - cbn in Hfree. apply orb_false_iff in Hfree as [Hc Hfree].
    cbn [Std.getline_all_from]. rewrite Hc, (IH _ Hfree).
    by rewrite string_app_assoc.
Qed.

(** The lines [std::getline] reads back from a text written line by line. *)
Lemma getline_all_endl_text (lines : list string) :
  Forall (λ line, Std.has_char Std.newline line = false) lines →
  Std.getline_all Std.newline (Std.endl_text lines) = lines.
Proof.
  induction 1 as [|line lines Hline _ IH]; [done|].
  unfold Std.getline_all in *. cbn [Std.endl_text foldr].
  rewrite getline_all_from_line by done. fold (Std.endl_text lines).
  by rewrite IH.
Qed.

Lemma parse_csv_line_empty : OrderManager.parse_csv_line stod "" = None.
Proof. done. Qed.

(** A line is accepted exactly when its first four comma-separated fields
    convert and the side is 0 or 1; further fields are not looked at. *)
Lemma parse_csv_line_Some line o :
  OrderManager.parse_csv_line stod line = Some o ↔
  ∃ f0 f1 f2 f3 more n2 n3,
    Std.getline_all ","%char line = f0 :: f1 :: f2 :: f3 :: more ∧
    Std.stoull f0 = Some (Order.id o) ∧
    stod f1 = Some (Order.price o) ∧
    Std.stoul f2 = Some n2 ∧ Order.quantity o = Std.to_uint32 n2 ∧
    Std.stoul f3 = Some n3 ∧ Order.side o = Std.to_uint32 n3 ∧
    (Order.side o ≤ 1)%N.
Proof.
  unfold OrderManager.parse_csv_line.
  destruct (Std.getline_all ","%char line) as [|f0 [|f1 [|f2 [|f3 more]]]];
    cbn [lookup list_lookup mbind option_bind].
  1-4: split; [|by intros (?&?&?&?&?&?&?&?&?)].
  - discriminate.
  - by destruct (Std.stoull f0).
  - destruct (Std.stoull f0); [|done]. by destruct (stod f1).
  - destruct (Std.stoull f0); [|done]. destruct (stod f1); [|done].
    by destruct (Std.stoul f2).
  - split.
    + destruct (Std.stoull f0) as [i|] eqn:H0; [|done].
      destruct (stod f1) as [p|] eqn:H1; [|done].
      destruct (Std.stoul f2) as [n2|] eqn:H2; [|done].
      destruct (Std.stoul f3) as [n3|] eqn:H3; [|done].
      cbn [mbind option_bind fmap option_fmap option_map].
      destruct (1 <? Std.to_uint32 n3)%N eqn:Hside; [done|].
      intros [= <-]. exists f0, f1, f2, f3, more, n2, n3.
      apply N.ltb_ge in Hside. done.
    + intros (g0 & g1 & g2 & g3 & more' & n2 & n3 & [= <- <- <- <- <-] &
              H0 & H1 & H2 & Hq & H3 & Hs & Hle).
      rewrite H0, H1, H2, H3.
      cbn [mbind option_bind fmap option_fmap option_map].
      rewrite <- Hs, <- Hq. apply N.ltb_ge in Hle. rewrite Hle.
      by destruct o.
Qed.

Lemma load_line_rejected line (acc : Z * OrderManager.t) :
  OrderManager.parse_csv_line stod line = None →
  OrderManager.load_line stod line acc = acc.
Proof. unfold OrderManager.load_line. by intros ->. Qed.



(** The counter follows the growth of the book. *)
Lemma load_line_count m0 line (acc : Z * OrderManager.t) :
  acc.1 = OrderManager.wrap64
            (Z.of_nat (base.size (OrderManager.orders_ acc.2))
             - Z.of_nat (base.size (OrderManager.orders_ m0))) →
  (OrderManager.load_line stod line acc).1
  = OrderManager.wrap64
      (Z.of_nat (base.size (OrderManager.orders_ (OrderManager.load_line stod line acc).2))
       - Z.of_nat (base.size (OrderManager.orders_ m0))).
Proof.
  intros Hacc. unfold OrderManager.load_line.
  destruct (OrderManager.parse_csv_line stod line) as [o|]; [|done].
  unfold OrderManager.add_order.
  destruct (OrderManager.orders_ acc.2 !! Order.id o) eqn:Hk; [done|].
  cbn [fst snd OrderManager.orders_]. rewrite map_size_insert_None by done.
  rewrite Hacc. unfold OrderManager.wrap64. rewrite Zplus_mod_idemp_l.
  f_equal. lia.
Qed.

Lemma load_rest_count m0 (lines : list string) (acc : Z * OrderManager.t) :
  acc.1 = OrderManager.wrap64
            (Z.of_nat (base.size (OrderManager.orders_ acc.2))
             - Z.of_nat (base.size (OrderManager.orders_ m0))) →
  (OrderManager.load_rest stod lines acc).1
  = OrderManager.wrap64
      (Z.of_nat (base.size (OrderManager.orders_ (OrderManager.load_rest stod lines acc).2))
       - Z.of_nat (base.size (OrderManager.orders_ m0))).
Proof.
  revert acc. induction lines as [|line lines IH]; intros acc Hacc; [done|].
  unfold OrderManager.load_rest. cbn [foldl]. apply IH.
  case_decide; [done|]. by apply load_line_count.
Qed.

Lemma load_lines_count (lines : list string) m :
  (OrderManager.load_lines stod lines m).1
  = OrderManager.wrap64
      (Z.of_nat (base.size (OrderManager.orders_ (OrderManager.load_lines stod lines m).2))
       - Z.of_nat (base.size (OrderManager.orders_ m))).
Proof.
  unfold OrderManager.load_lines. apply load_rest_count.
  destruct (OrderManager.looks_like_header _).
  - cbn [fst snd]. by rewrite Z.sub_diag.
  - apply load_line_count. cbn [fst snd]. by rewrite Z.sub_diag.
Qed.

Lemma add_order_keeps m o k old :
  OrderManager.get_order k m = Some old →
  OrderManager.get_order k (OrderManager.add_order o m).2 = Some old.
Proof.
  unfold OrderManager.get_order, OrderManager.add_order. intros Hk.
  destruct (OrderManager.orders_ m !! Order.id o) eqn:Ho; [done|].
  cbn. rewrite lookup_insert_ne; [done|]. intros Heq. congruence.
Qed.


(** The header test is a search for "id" or "ID" in the whole first line;
    a first line that passes it is dropped, any other first line is read
    like a later line. *)
Lemma load_lines_header first (rest : list string) m :
  OrderManager.looks_like_header first = true →
  OrderManager.load_lines stod (first :: rest) m
  = OrderManager.load_lines stod (""%string :: rest) m.
Proof.
  intros Hhead. unfold OrderManager.load_lines. cbn [hd tl]. by rewrite Hhead.
Qed.

Lemma load_lines_no_header first (rest : list string) m :
  OrderManager.looks_like_header first = false →
  OrderManager.load_lines stod (first :: rest) m
  = OrderManager.load_lines stod (""%string :: first :: rest) m.
Proof.
  intros Hhead. unfold OrderManager.load_lines. cbn [hd tl]. rewrite Hhead.
  change (OrderManager.looks_like_header "") with false. cbv iota.
  rewrite (load_line_rejected "" _ parse_csv_line_empty).
  unfold OrderManager.load_rest. cbn [foldl]. case_decide as Hempty; [|done].
  subst first. by rewrite (load_line_rejected "" _ parse_csv_line_empty).
Qed.

Lemma load_lines_first_rejected first (rest : list string) m :
  OrderManager.parse_csv_line stod first = None →
  OrderManager.load_lines stod (first :: rest) m
  = OrderManager.load_lines stod (""%string :: rest) m.
Proof.
  intros Hfirst. unfold OrderManager.load_lines. cbn [hd tl].
  change (OrderManager.looks_like_header "") with false. cbv iota.
  rewrite (load_line_rejected "" _ parse_csv_line_empty).
  destruct (OrderManager.looks_like_header first); [done|].
  by rewrite load_line_rejected.
Qed.

Lemma load_from_csv_lines (lines : list string) m :
  Forall (λ line, Std.has_char Std.newline line = false) lines →
  OrderManager.load_from_csv stod (Some (Std.endl_text lines)) m
  = (Some (OrderManager.load_lines stod lines m).1,
     (OrderManager.load_lines stod lines m).2).
Proof.
  intros Hlines. unfold OrderManager.load_from_csv.
  by rewrite getline_all_endl_text.
Qed.





(** C8, amended: the first line is skipped as a header exactly when it
    contains "id" or "ID" somewhere, whatever its id field is: then the
    load gives what it gives with an empty first line.  A first line
    without them is read as an order record like any later line.  A first
    line the parser rejects (a non-numeric id field among the reasons)
    adds nothing in either case. *)
Theorem header_by_substring (first : string) (rest : list string) m :
  Forall (λ l, Std.has_char Std.newline l = false) (first :: rest) →
  let load lines := OrderManager.load_from_csv stod (Some (Std.endl_text lines)) m in
  (Std.contains "id" first || Std.contains "ID" first = true →
   load (first :: rest) = load (""%string :: rest)) ∧
  (Std.contains "id" first || Std.contains "ID" first = false →
   load (first :: rest) = load (""%string :: first :: rest)) ∧
  (OrderManager.parse_csv_line stod first = None →
   load (first :: rest) = load (""%string :: rest)).
Proof.
  intros Hlines load. apply Forall_cons in Hlines as Hsplit.
  destruct Hsplit as [Hfirst Hrest].
  assert (Forall (λ l, Std.has_char Std.newline l = false) (""%string :: rest))
    as Hblank by (by apply Forall_cons).
  assert (Forall (λ l, Std.has_char Std.newline l = false)
            (""%string :: first :: rest)) as Hblank' by (by apply Forall_cons).
  subst load. cbn beta. rewrite !load_from_csv_lines by done.
  split; [|split].
  - intros Hhead. by rewrite load_lines_header.
  - intros Hhead. by rewrite load_lines_no_header.
  - intros Hnone. by rewrite load_lines_first_rejected.
Qed.

End CsvLoading.



(** C8, as the specification states it, fails: the first line
    "1,100,10,0,ID" has the numeric id field "1" and is skipped as a header,
    while the same line in second place is loaded as order 1. *)
Lemma numeric_first_line_skipped :
  let first := OrderManager.load_from_csv Std.stod_decimal
                 (Some Fixture.id_first_file) OrderManager.new in
  let second := OrderManager.load_from_csv Std.stod_decimal
                  (Some Fixture.id_second_file) OrderManager.new in
  Std.getline_all ","%char "1,100,10,0,ID" !! 0%nat = Some "1"%string ∧
  Std.stoull "1" = Some 1%N ∧
  first.1 = Some 0 ∧ OrderManager.get_order 1 first.2 = None ∧
  second.1 = Some 1 ∧
  OrderManager.get_order 1 second.2 = Some (Order.mk 1 100 10 0).
Proof. vm_compute. repeat split; reflexivity. Qed.

Lemma header_by_substring_witness :
  let load lines :=
    OrderManager.load_from_csv Std.stod_decimal (Some (Std.endl_text lines))
      OrderManager.new in
  (load ["ID,PRICE"; "1,150.50,100,0"]%string = load [""; "1,150.50,100,0"]%string) ∧
  (load ["1,150.50,100,0"; "2,151.25,200,1"]%string
   = load [""; "1,150.50,100,0"; "2,151.25,200,1"]%string) ∧
  (load ["abc,100,10,0"; "1,150.50,100,0"]%string = load [""; "1,150.50,100,0"]%string).
Proof.
  assert (∀ lines, Forall (λ l, Std.has_char Std.newline l = false) lines
                   ↔ forallb (λ l, negb (Std.has_char Std.newline l)) lines = true)
    as Hfree.
  { intros lines. rewrite forallb_forall, Forall_forall.
    split; intros H l Hl.
    - apply list_elem_of_In in Hl. by rewrite (H l Hl).
    - apply list_elem_of_In in Hl. apply negb_true_iff. by apply H. }
  destruct (header_by_substring Std.stod_decimal "ID,PRICE"%string
              ["1,150.50,100,0"%string] OrderManager.new) as (Hheader & _ & _);
    [by apply Hfree|].
  destruct (header_by_substring Std.stod_decimal "1,150.50,100,0"%string
              ["2,151.25,200,1"%string] OrderManager.new) as (_ & Hdata & _);
    [by apply Hfree|].
  destruct (header_by_substring Std.stod_decimal "abc,100,10,0"%string
              ["1,150.50,100,0"%string] OrderManager.new) as (_ & _ & Hbad);
    [by apply Hfree|].
  split; [exact (Hheader eq_refl)|]. split; [exact (Hdata eq_refl)|].
  exact (Hbad eq_refl).
Defined.

(** ** The order of [double] prices *)

Section FloatOrder.

Implicit Types (x y z : float) (f : spec_float).

Lemma SFltb_key f1 f2 :
  SFltb f1 f2 = true ↔
  match Std.sf_key f1, Std.sf_key f2 with
  | Some a, Some b => Std.key_lt a b
  | _, _ => False
  end.
Proof.
  unfold SFltb, SFcompare, Std.key_lt.
  destruct f1 as [[]|[]| |[] m1 e1], f2 as [[]|[]| |[] m2 e2];
    cbn [Std.sf_key fst snd];
    try (split; [discriminate | lia]); try (split; [lia | done]);
    try (split; [discriminate | done]).
  all: change (Pos.compare_cont Eq m1 m2) with (m1 ?= m2)%positive.
  all: destruct (Z.compare_spec e1 e2); destruct (Pos.compare_spec m1 m2);
    cbn [CompOpp]; split; first [discriminate | lia | done].
Qed.

Lemma SFleb_key f1 f2 :
  SFleb f1 f2 = true ↔
  match Std.sf_key f1, Std.sf_key f2 with
  | Some a, Some b => ¬ Std.key_lt b a
  | _, _ => False
  end.
Proof.
  unfold SFleb, SFcompare, Std.key_lt.
  destruct f1 as [[]|[]| |[] m1 e1], f2 as [[]|[]| |[] m2 e2];
    cbn [Std.sf_key fst snd];
    try (split; [discriminate | lia]); try (split; [lia | done]);
    try (split; [discriminate | done]).
  all: change (Pos.compare_cont Eq m1 m2) with (m1 ?= m2)%positive.
  all: destruct (Z.compare_spec e1 e2); destruct (Pos.compare_spec m1 m2);
    cbn [CompOpp]; split; first [discriminate | lia | done].
Qed.

Lemma is_nan_key x :
  PrimFloat.is_nan x = false ↔ is_Some (Std.sf_key (Prim2SF x)).
Proof.
  unfold PrimFloat.is_nan. rewrite FloatAxioms.eqb_spec. unfold SFeqb, SFcompare.
  destruct (Prim2SF x) as [[]|[]| |[] m e]; cbn [Std.sf_key negb];
    rewrite ?Z.compare_refl;
    try change (Pos.compare_cont Eq m m) with (m ?= m)%positive;
    rewrite ?Pos.compare_refl; cbn [CompOpp negb];
    split; first [done | by eexists | by intros [? ?]].
Qed.

Lemma ltb_asym x y : PrimFloat.ltb x y = true → PrimFloat.ltb y x = false.
Proof.
  intros Hxy. apply not_true_is_false. intros Hyx.
  rewrite FloatAxioms.ltb_spec in Hxy, Hyx. apply SFltb_key in Hxy, Hyx.
  destruct (Std.sf_key (Prim2SF x)) as [a|], (Std.sf_key (Prim2SF y)) as [b|];
    try done.
  unfold Std.key_lt in *. lia.
Qed.

Lemma ltb_between x y z :
  PrimFloat.is_nan y = false →
  PrimFloat.ltb x z = true →
  PrimFloat.ltb x y = true ∨ PrimFloat.ltb y z = true.
Proof.
  intros [b Hb]%is_nan_key Hxz. rewrite !FloatAxioms.ltb_spec in *.
  rewrite !SFltb_key in *. rewrite Hb.
  destruct (Std.sf_key (Prim2SF x)) as [a|], (Std.sf_key (Prim2SF z)) as [c|];
    try done.
  unfold Std.key_lt in *. lia.
Qed.

Lemma not_ltb_leb x y :
  PrimFloat.is_nan x = false → PrimFloat.is_nan y = false →
  PrimFloat.ltb x y = false → PrimFloat.leb y x = true.
Proof.
  intros [a Ha]%is_nan_key [b Hb]%is_nan_key Hxy.
  rewrite FloatAxioms.leb_spec. apply SFleb_key. rewrite Ha, Hb.
  intros Hlt. apply not_true_iff_false in Hxy. apply Hxy.
  rewrite FloatAxioms.ltb_spec. apply SFltb_key. by rewrite Ha, Hb.
Qed.

End FloatOrder.

(** ** Sorting with a comparator *)

Section Sort.

Context {A : Type} (comp : A → A → bool) (ok : A → Prop).

Hypothesis comp_asym : ∀ a b, comp a b = true → comp b a = false.
Hypothesis comp_between :
  ∀ a b c, ok b → comp a c = true → comp a b = true ∨ comp b c = true.

(** Sortedness is stated as: no later element goes before an earlier
    one. *)
Lemma sort_insert_perm x l : Std.sort_insert comp x l ≡ₚ x :: l.
Proof.
  induction l as [|y l IH]; [done|]. cbn.
  destruct (comp y x); [|done]. rewrite IH. apply Permutation_swap.
Qed.

Lemma sort_perm l : Std.sort comp l ≡ₚ l.
Proof.
  induction l as [|x l IH]; [done|].
  change (Std.sort comp (x :: l))
    with (Std.sort_insert comp x (Std.sort comp l)).
  by rewrite sort_insert_perm, IH.
Qed.

Lemma sort_insert_sorted x l :
  Forall ok l → StronglySorted (λ a b, comp b a = false) l →
  StronglySorted (λ a b, comp b a = false) (Std.sort_insert comp x l).
Proof.
  intros Hok Hsorted. induction Hsorted as [|y l Hsorted IH Hy].
  - cbn. by repeat constructor.
  - apply Forall_cons in Hok as [Hoky Hok]. cbn.
    destruct (comp y x) eqn:Hyx.
    + constructor; [by apply IH|].
      rewrite sort_insert_perm. constructor; [|done].
      by apply comp_asym.
    + constructor; [by constructor|].
      constructor; [done|].
      rewrite Forall_forall in Hy |- *. intros z Hz.
      specialize (Hy z Hz). cbn beta in *.
      apply not_true_is_false. intros Hzx.
      destruct (comp_between z y x Hoky Hzx); congruence.
Qed.

Lemma sort_sorted l : Forall ok l → StronglySorted (λ a b, comp b a = false) (Std.sort comp l).
Proof.
  induction 1 as [|x l Hx Hl IH]; [constructor|].
  change (Std.sort comp (x :: l))
    with (Std.sort_insert comp x (Std.sort comp l)).
  apply sort_insert_sorted; [|done]. by rewrite sort_perm.
Qed.

End Sort.

Lemma StronglySorted_lookup_lt {A} (R : relation A) (l : list A) i j a b :
  StronglySorted R l → (i < j)%nat → l !! i = Some a → l !! j = Some b → R a b.
Proof.
  intros Hsorted. revert i j.
  induction Hsorted as [|x l _ IH Hx]; intros i j Hij Hi Hj; [done|].
  destruct j as [|j]; [lia|]. cbn in Hj. destruct i as [|i].
  - cbn in Hi. injection Hi as ->. rewrite Forall_forall in Hx.
    apply Hx. by eapply list_elem_of_lookup_2.
  - cbn in Hi. apply (IH i j); [lia|done..].
Qed.

(** ** The text of a snapshot row *)

Section Rendering.

Lemma string_length_app (s t : string) :
  String.length (s ++ t)%string = (String.length s + String.length t)%nat.
Proof.
  induction s as [|c s IH]; [done|].
  change (S (String.length (s ++ t)%string) = S (String.length s + String.length t)).
  by rewrite IH.
Qed.

Lemma spaces_length n : String.length (Std.spaces n) = n.
Proof.
  unfold Std.spaces. induction n as [|n IH]; [done|]. cbn. by rewrite IH.
Qed.

(** [setw] pads to the width and never cuts. *)
Lemma setw_length w field :
  String.length (Std.setw w field) = (w `max` String.length field)%nat.
Proof. unfold Std.setw. rewrite string_length_app, spaces_length. lia. Qed.

Lemma pretty_N_go_length (k : nat) (n : N) (s : string) :
  (n < 10 ^ N.of_nat k)%N →
  (String.length (pretty_N_go n s) ≤ k + String.length s)%nat.
Proof.
  revert n s. induction k as [|k IH]; intros n s Hn.
  - assert (n = 0%N) as -> by (cbn in Hn; lia). rewrite pretty_N_go_0. lia.
  - destruct (decide (n = 0%N)) as [->|Hpos]; [rewrite pretty_N_go_0; lia|].
    rewrite pretty_N_go_step by lia.
    etrans; [apply IH|cbn; lia].
    apply N.Div0.div_lt_upper_bound.
    replace (N.of_nat (S k)) with (N.succ (N.of_nat k)) in Hn by lia.
    by rewrite N.pow_succ_r' in Hn.
Qed.

Lemma put_unsigned_length (k : nat) (n : N) :
  (0 < k)%nat → (n < 10 ^ N.of_nat k)%N →
  (String.length (Std.put_unsigned n) ≤ k)%nat.
Proof.
  intros Hk Hn. unfold Std.put_unsigned, pretty, pretty_N.
  case_decide; [cbn; lia|].
  etrans; [by apply pretty_N_go_length|]. cbn. lia.
Qed.

Lemma digit_char_isdigit d : 0 ≤ d ≤ 9 → Std.isdigit (Std.digit_char d) = true.
Proof.
  intros Hd.
  assert (d = 0 ∨ d = 1 ∨ d = 2 ∨ d = 3 ∨ d = 4 ∨
          d = 5 ∨ d = 6 ∨ d = 7 ∨ d = 8 ∨ d = 9) as Hcases by lia.
  repeat destruct Hcases as [->|Hcases]; try reflexivity. by subst.
Qed.

Lemma round_half_even_nonneg num den :
  0 ≤ num → 0 < den → 0 ≤ Std.round_half_even num den.
Proof.
  intros Hnum Hden. unfold Std.round_half_even.
  assert (0 ≤ num / den) by (apply Z.div_pos; lia).
  repeat case_match; lia.
Qed.

Lemma hundredths_nonneg m e : 0 ≤ Std.hundredths m e.
Proof.
  unfold Std.hundredths. case_match.
  - assert (0 ≤ 2 ^ e) by (apply Z.pow_nonneg; lia). lia.
  - apply round_half_even_nonneg; [lia|]. apply Z.pow_pos_nonneg; lia.
Qed.

(** A value that is not an infinity or a NaN is written with a point
    followed by exactly two digits. *)
Lemma put_fixed2_two_decimals x :
  Std.sf_key (Prim2SF x) ≠ None →
  Std.sf_key (Prim2SF x) ≠ Some (2, 0, 0) →
  Std.sf_key (Prim2SF x) ≠ Some (-2, 0, 0) →
  ∃ whole d1 d2,
    Std.put_fixed2 x = (whole ++ "." ++ String d1 (String d2 ""))%string ∧
    Std.isdigit d1 = true ∧ Std.isdigit d2 = true.
Proof.
  unfold Std.put_fixed2.
  destruct (Prim2SF x) as [s|[]| |s m e]; cbn [Std.sf_key]; try done.
  - intros _ _ _. exists (Std.sign_text s ++ "0")%string, "0"%char, "0"%char.
    split; [|done]. by rewrite string_app_assoc.
  - intros _ _ _.
    pose proof (hundredths_nonneg m e) as Hh.
    set (h := Std.hundredths m e) in *.
    exists (Std.sign_text s ++ pretty (Z.to_N (h / 100)))%string,
           (Std.digit_char (h mod 100 / 10)), (Std.digit_char (h mod 100 mod 10)).
    split; [by rewrite string_app_assoc|].
    pose proof (Z.mod_pos_bound h 100 eq_refl) as Hmod.
    split; apply digit_char_isdigit.
    + split; [apply Z.div_pos; lia|]. apply Z.lt_succ_r.
      apply Z.div_lt_upper_bound; lia.
    + pose proof (Z.mod_pos_bound (h mod 100) 10 eq_refl). lia.
Qed.

End Rendering.

(** ** The snapshot *)

Section Snapshot.

Variable stod : string → option float.

Implicit Types (m : OrderManager.t) (o a b c : Order.t).

Lemma snapshot_less_asym a b :
  OrderManager.snapshot_less a b = true → OrderManager.snapshot_less b a = false.
Proof.
  unfold OrderManager.snapshot_less.
  destruct (Order.is_buy a), (Order.is_buy b); cbn; try done; apply ltb_asym.
Qed.

Lemma snapshot_less_between a b c :
  PrimFloat.is_nan (Order.price b) = false →
  OrderManager.snapshot_less a c = true →
  OrderManager.snapshot_less a b = true ∨ OrderManager.snapshot_less b c = true.
Proof.
  unfold OrderManager.snapshot_less. intros Hb.
  destruct (Order.is_buy a), (Order.is_buy b), (Order.is_buy c); cbn;
    try done; try (by left); try (by right).
  - intros Hac. destruct (ltb_between _ _ _ Hb Hac); auto.
  - by apply ltb_between.
Qed.

Lemma cache_valid_run (calls : list OrderManager.call) :
  OrderManager.cache_valid (OrderManager.run stod calls OrderManager.new).
Proof.
  apply (run_preserves stod OrderManager.cache_valid); unfold OrderManager.cache_valid.
  - intros m o Hm. unfold OrderManager.add_order. by case_match.
  - intros m k Hm. unfold OrderManager.cancel_order. by case_match.
  - intros m Hm. unfold OrderManager.rebuild_snapshot_cache.
    destruct (OrderManager.snapshot_dirty_ m) eqn:Hd; [done|].
    intros _. by apply Hm.
  - intros m _ _. cbn. by rewrite map_to_list_empty.
  - done.
Qed.

Lemma deref_keys (book : gmap N Order.t) :
  omap (λ k, book !! k) (map_to_list book).*1 = (map_to_list book).*2.
Proof.
  assert (∀ l : list (N * Order.t),
            (∀ k o, (k, o) ∈ l → book !! k = Some o) →
            omap (λ k, book !! k) l.*1 = l.*2) as Hlist.
  { induction l as [|[k o] l IH]; intros Hl; [done|].
    cbn. rewrite (Hl k o) by left. f_equal. apply IH.
    intros k' o' Hin. apply Hl. by right. }
  apply Hlist. intros k o. apply elem_of_map_to_list.
Qed.

(** What [print_snapshot] lists for a manager with a sound cache. *)
Lemma print_snapshot_listing m :
  OrderManager.cache_valid m →
  OrderManager.order_ptrs_ (OrderManager.print_snapshot m).2
    = (map_to_list (OrderManager.orders_ m)).*1 ∧
  OrderManager.sorted_orders (OrderManager.print_snapshot m).2
    = Std.sort OrderManager.snapshot_less (map_to_list (OrderManager.orders_ m)).*2.
Proof.
  intros Hm. unfold OrderManager.print_snapshot. cbn [snd].
  assert (OrderManager.order_ptrs_ (OrderManager.rebuild_snapshot_cache m)
            = (map_to_list (OrderManager.orders_ m)).*1 ∧
          OrderManager.orders_ (OrderManager.rebuild_snapshot_cache m)
            = OrderManager.orders_ m) as [Hptrs Hbook].
  { unfold OrderManager.rebuild_snapshot_cache.
    destruct (OrderManager.snapshot_dirty_ m) eqn:Hd; [done|]. split; [|done].
    by apply Hm. }
  split; [done|].
  unfold OrderManager.sorted_orders, OrderManager.deref.
  by rewrite Hptrs, Hbook, deref_keys.
Qed.

Lemma is_finite_key x :
  PrimFloat.is_finite x = true →
  Std.sf_key (Prim2SF x) ≠ None ∧
  Std.sf_key (Prim2SF x) ≠ Some (2, 0, 0) ∧
  Std.sf_key (Prim2SF x) ≠ Some (-2, 0, 0).
Proof.
  unfold PrimFloat.is_finite, PrimFloat.is_infinity, PrimFloat.is_nan.
  rewrite !FloatAxioms.eqb_spec, abs_spec.
  destruct (Prim2SF x) as [s|s| |[] m e]; cbn [Std.sf_key]; try done.
  destruct s; intros H; vm_compute in H; discriminate H.
Qed.

Lemma print_row_length o :
  (Order.id o < 10 ^ 12)%N → (Order.quantity o < 2 ^ 32)%N →
  (String.length (Std.put_fixed2 (Order.price o)) ≤ 12)%nat →
  String.length (OrderManager.print_row o) = 44%nat.
Proof.
  intros Hid Hq Hp. unfold OrderManager.print_row.
  rewrite !string_length_app, !setw_length.
  pose proof (put_unsigned_length 12 (Order.id o) ltac:(lia) Hid).
  pose proof (put_unsigned_length 12 (Order.quantity o) ltac:(lia) ltac:(lia)).
  assert (String.length (OrderManager.side_label o) ≤ 8)%nat.
  { unfold OrderManager.side_label. destruct (Order.is_buy o); cbn; lia. }
  lia.
Qed.

(** C9, amended: after any run of calls on a fresh manager whose live
    orders all have a price that is a number (no NaN), the snapshot lists
    exactly the active orders, every buy (side 0) before every other
    order, buys by non-increasing price and the others by non-decreasing
    price; nothing is promised about the order of orders equal in side and
    price.  The text is the banner and the header followed by one row per
    listed order, in that order; a row is the id, the price, the quantity
    and the label "BUY" (side 0) or "SELL", right-aligned in columns of at
    least 12, 12, 12 and 8 characters, so 44 characters whenever the id is
    below [10^12], the quantity fits a [uint32_t] and the price text has at
    most 12 characters; a finite price is written with a point and two
    digits. *)
Theorem snapshot_by_priority (calls : list OrderManager.call) :
  let m := OrderManager.run stod calls OrderManager.new in
  let out := OrderManager.print_snapshot m in
  let listed := OrderManager.sorted_orders out.2 in
  map_Forall (λ _ o, PrimFloat.is_nan (Order.price o) = false)
    (OrderManager.orders_ m) →
  listed ≡ₚ (map_to_list (OrderManager.orders_ m)).*2 ∧
  (∀ i j a b,
     (i < j)%nat → listed !! i = Some a → listed !! j = Some b →
     (Order.is_buy b = true → Order.is_buy a = true) ∧
     (Order.is_buy a = true → Order.is_buy b = true →
      PrimFloat.leb (Order.price b) (Order.price a) = true) ∧
     (Order.is_buy a = false → Order.is_buy b = false →
      PrimFloat.leb (Order.price a) (Order.price b) = true)) ∧
  out.1 = Std.endl_text (OrderManager.snapshot_lines out.2) ∧
  (listed ≠ [] →
   OrderManager.snapshot_lines out.2
   = [""; "=== ORDER BOOK SNAPSHOT ===";
      "Total Active Orders: " +:+
        pretty (Z.to_N (OrderManager.wrap64 (Z.of_nat (length listed))));
      ""; OrderManager.header_row; OrderManager.rule_row]
     ++ (OrderManager.print_row <$> listed) ++ [""]) ∧
  (∀ o,
     OrderManager.print_row o
     = Std.setw 12 (Std.put_unsigned (Order.id o)) +:+
       Std.setw 12 (Std.put_fixed2 (Order.price o)) +:+
       Std.setw 12 (Std.put_unsigned (Order.quantity o)) +:+
       Std.setw 8 (if Order.is_buy o then "BUY" else "SELL")) ∧
  (∀ o,
     (Order.id o < 10 ^ 12)%N → (Order.quantity o < 2 ^ 32)%N →
     (String.length (Std.put_fixed2 (Order.price o)) ≤ 12)%nat →
     String.length (OrderManager.print_row o) = 44%nat) ∧
  (∀ o,
     PrimFloat.is_finite (Order.price o) = true →
     ∃ whole d1 d2,
       Std.put_fixed2 (Order.price o) = whole +:+ "." +:+ String d1 (String d2 "") ∧
       Std.isdigit d1 = true ∧ Std.isdigit d2 = true).
Proof.
  intros m out listed Hprices.
  destruct (print_snapshot_listing m (cache_valid_run calls)) as [Hptrs Hlisted].
  fold out in Hptrs, Hlisted. fold listed in Hlisted.
  assert (Forall (λ o, PrimFloat.is_nan (Order.price o) = false)
            (map_to_list (OrderManager.orders_ m)).*2) as Hok.
  { rewrite Forall_fmap, Forall_forall. intros [k o] Hin.
    apply elem_of_map_to_list in Hin. by apply (Hprices k o). }
  assert (StronglySorted (λ a b, OrderManager.snapshot_less b a = false) listed)
    as Hsorted.
  { rewrite Hlisted.
    apply (sort_sorted OrderManager.snapshot_less
             (λ o, PrimFloat.is_nan (Order.price o) = false));
      [apply snapshot_less_asym | apply snapshot_less_between | done]. }
  assert (listed ≡ₚ (map_to_list (OrderManager.orders_ m)).*2) as Hperm
    by (rewrite Hlisted; apply sort_perm).
  split; [done|]. split; [|split; [done|split; [|split; [done|split]]]].
  - intros i j a b Hij Hi Hj.
    pose proof (StronglySorted_lookup_lt _ _ _ _ _ _ Hsorted Hij Hi Hj) as Hab.
    cbn beta in Hab.
    assert (PrimFloat.is_nan (Order.price a) = false) as Ha.
    { rewrite <- Hperm, Forall_forall in Hok. apply Hok.
      by eapply list_elem_of_lookup_2. }
    assert (PrimFloat.is_nan (Order.price b) = false) as Hb.
    { rewrite <- Hperm, Forall_forall in Hok. apply Hok.
      by eapply list_elem_of_lookup_2. }
    unfold OrderManager.snapshot_less in Hab.
    destruct (Order.is_buy a), (Order.is_buy b); cbn in Hab; try done.
    + split; [done|]. split; [|done]. intros _ _. by apply not_ltb_leb.
    + split; [done|]. split; [done|]. intros _ _. by apply not_ltb_leb.
  - intros Hne. unfold OrderManager.snapshot_lines.
    assert (length (OrderManager.order_ptrs_ out.2) = length listed) as Hlen.
    { rewrite Hptrs, Hperm. by rewrite !length_fmap. }
    rewrite Hlen.
    destruct (OrderManager.order_ptrs_ out.2) as [|k ptrs]; [|done].
    destruct listed; [done|discriminate Hlen].
  - intros o. apply print_row_length.
  - intros o Hfinite. destruct (is_finite_key _ Hfinite) as (H1 & H2 & H3).
    by apply put_fixed2_two_decimals.
Qed.

End Snapshot.

(** C9, as the specification states it, fails: of two buy orders at price
    100 the one that arrived second is listed first; an id of thirteen
    digits makes a row of 45 characters; and a price of infinity is written
    without decimals. *)
Lemma snapshot_ties_not_by_arrival :
  let m := OrderManager.run Std.stod_decimal
             [OrderManager.AddOrder Fixture.tie_first;
              OrderManager.AddOrder Fixture.tie_second] OrderManager.new in
  OrderManager.sorted_orders (OrderManager.print_snapshot m).2
    = [Fixture.tie_second; Fixture.tie_first] ∧
  OrderManager.print_row <$> OrderManager.sorted_orders (OrderManager.print_snapshot m).2
    = ["           2      100.00          10     BUY";
       "           1      100.00          10     BUY"] ∧
  String.length (OrderManager.print_row Fixture.wide_id) = 45%nat ∧
  OrderManager.print_row Fixture.priceless
    = "           3         inf          10    SELL".
Proof. vm_compute. repeat split; reflexivity. Qed.

Lemma snapshot_by_priority_witness :
  let out := OrderManager.print_snapshot Fixture.two_orders in
  OrderManager.sorted_orders out.2 = [Fixture.order1; Fixture.order2] ∧
  OrderManager.snapshot_lines out.2
  = [""; "=== ORDER BOOK SNAPSHOT ==="; "Total Active Orders: 2"; "";
     "    Order ID       Price    Quantity    Side";
     "--------------------------------------------";
     "           1      150.50         100     BUY";
     "           2      151.25         200    SELL"; ""] ∧
  (∀ i j a b,
     (i < j)%nat →
     OrderManager.sorted_orders out.2 !! i = Some a →
     OrderManager.sorted_orders out.2 !! j = Some b →
     (Order.is_buy b = true → Order.is_buy a = true) ∧
     (Order.is_buy a = true → Order.is_buy b = true →
      PrimFloat.leb (Order.price b) (Order.price a) = true) ∧
     (Order.is_buy a = false → Order.is_buy b = false →
      PrimFloat.leb (Order.price a) (Order.price b) = true)).
Proof.
  split; [reflexivity|]. split; [reflexivity|].
  refine (proj1 (proj2 (snapshot_by_priority Std.stod_decimal
            [OrderManager.AddOrder Fixture.order1;
             OrderManager.AddOrder Fixture.order2] _))).
  apply (bool_decide_unpack _). vm_compute. exact I.
Defined.

(** * Further properties of the code *)

(** ** The snapshot cache *)

Section SnapshotCache.

Variable stod : string → option float.

Implicit Types (m : OrderManager.t) (o : Order.t) (k : N).

Lemma print_snapshot_book m :
  OrderManager.orders_ (OrderManager.print_snapshot m).2 = OrderManager.orders_ m ∧
  OrderManager.total_orders_added_ (OrderManager.print_snapshot m).2
    = OrderManager.total_orders_added_ m ∧
  OrderManager.total_orders_cancelled_ (OrderManager.print_snapshot m).2
    = OrderManager.total_orders_cancelled_ m ∧
  OrderManager.snapshot_dirty_ (OrderManager.print_snapshot m).2 = false.
Proof.
  unfold OrderManager.print_snapshot, OrderManager.rebuild_snapshot_cache.
  cbn [snd]. by destruct (OrderManager.snapshot_dirty_ m) eqn:Hd.
Qed.

(** X1: whenever [print_snapshot] reads the pointer cache, after any run of
    calls, the cache holds one pointer for every live order and nothing
    else: no pointer dangles and none is missing or repeated. *)
Theorem snapshot_cache_sound (calls : list OrderManager.call) :
  let m := OrderManager.run stod calls OrderManager.new in
  let cached := OrderManager.order_ptrs_ (OrderManager.print_snapshot m).2 in
  NoDup cached ∧
  (∀ k, k ∈ cached ↔ is_Some (OrderManager.get_order k m)) ∧
  (OrderManager.snapshot_dirty_ m = false → OrderManager.order_ptrs_ m = cached).
Proof.
  intros m cached.
  destruct (print_snapshot_listing m (cache_valid_run stod calls)) as [Hptrs _].
  subst cached. rewrite Hptrs. split; [apply NoDup_fst_map_to_list|]. split.
  - intros k. unfold OrderManager.get_order. rewrite list_elem_of_fmap. split.
    + intros [[k' o] [-> Hin]]. apply elem_of_map_to_list in Hin. by eexists.
    + intros [o Ho]. exists (k, o). split; [done|]. by apply elem_of_map_to_list.
  - apply (cache_valid_run stod calls).
Qed.

(** X2: after any run of calls that leaves no live order with a NaN price
    (the comparator handed to [std::sort] is then a strict weak order),
    the snapshot lists every live order exactly once, the banner shows
    [size()], and an empty book prints the five lines ending in
    "No active orders." *)
Theorem snapshot_complete (calls : list OrderManager.call) :
  let m := OrderManager.run stod calls OrderManager.new in
  let out := OrderManager.print_snapshot m in
  let listed := OrderManager.sorted_orders out.2 in
  map_Forall (λ _ o, PrimFloat.is_nan (Order.price o) = false)
    (OrderManager.orders_ m) →
  listed ≡ₚ (map_to_list (OrderManager.orders_ m)).*2 ∧
  length listed = base.size (OrderManager.orders_ m) ∧
  OrderManager.snapshot_lines out.2 !! 2%nat
    = Some ("Total Active Orders: " +:+ pretty (Z.to_N (OrderManager.size m))) ∧
  (OrderManager.orders_ m = ∅ →
   out.1 = Std.endl_text [""; "=== ORDER BOOK SNAPSHOT ===";
                          "Total Active Orders: 0"; ""; "No active orders."]).
Proof.
  intros m out listed _.
  destruct (print_snapshot_listing m (cache_valid_run stod calls)) as [Hptrs Hlisted].
  fold out in Hptrs, Hlisted. fold listed in Hlisted.
  assert (listed ≡ₚ (map_to_list (OrderManager.orders_ m)).*2) as Hperm
    by (rewrite Hlisted; apply sort_perm).
  split; [done|]. split; [|split].
  - by rewrite Hperm, length_fmap, length_map_to_list.
  - unfold OrderManager.snapshot_lines, OrderManager.size.
    rewrite Hptrs, length_fmap, length_map_to_list.
    by destruct ((map_to_list (OrderManager.orders_ m)).*1).
  - intros Hempty. subst out. unfold OrderManager.print_snapshot. cbn [fst].
    fold (OrderManager.print_snapshot m).
    change (OrderManager.rebuild_snapshot_cache m)
      with (OrderManager.print_snapshot m).2.
    unfold OrderManager.snapshot_lines. rewrite Hptrs, Hempty, map_to_list_empty.
    reflexivity.
Qed.

End SnapshotCache.

Lemma snapshot_complete_witness :
  let m := OrderManager.run Std.stod_decimal
             [OrderManager.AddOrder Fixture.order1;
              OrderManager.AddOrder Fixture.order2] OrderManager.new in
  let out := OrderManager.print_snapshot m in
  map_Forall (λ _ o, PrimFloat.is_nan (Order.price o) = false)
    (OrderManager.orders_ m) ∧
  OrderManager.sorted_orders out.2 ≡ₚ [Fixture.order2; Fixture.order1] ∧
  length (OrderManager.sorted_orders out.2) = 2%nat ∧
  OrderManager.snapshot_lines out.2 !! 2%nat = Some "Total Active Orders: 2".
Proof.
  assert (map_Forall (λ _ o, PrimFloat.is_nan (Order.price o) = false)
            (OrderManager.orders_
               (OrderManager.run Std.stod_decimal
                  [OrderManager.AddOrder Fixture.order1;
                   OrderManager.AddOrder Fixture.order2] OrderManager.new)))
    as Hnum by (apply (bool_decide_unpack _); vm_compute; exact I).
  split; [exact Hnum|].
  destruct (snapshot_complete Std.stod_decimal
              [OrderManager.AddOrder Fixture.order1;
               OrderManager.AddOrder Fixture.order2] Hnum)
    as (Hperm & Hlen & Hbanner & _).
  split; [exact Hperm|]. split; [exact Hlen|exact Hbanner].
Defined.

(** ** How the operations compose *)

Section Composition.

Variable stod : string → option float.

Implicit Types (m : OrderManager.t) (o a b : Order.t) (k : N).

Lemma same_book_add m1 m2 o :
  OrderManager.same_book m1 m2 →
  (OrderManager.add_order o m1).1 = (OrderManager.add_order o m2).1 ∧
  OrderManager.same_book (OrderManager.add_order o m1).2 (OrderManager.add_order o m2).2.
Proof.
  unfold OrderManager.same_book, OrderManager.add_order.
  intros (Hb & Ha & Hc). rewrite Hb.
  destruct (OrderManager.orders_ m2 !! Order.id o); cbn; [done|].
  by rewrite Ha, Hc.
Qed.

Lemma same_book_cancel m1 m2 k :
  OrderManager.same_book m1 m2 →
  (OrderManager.cancel_order k m1).1 = (OrderManager.cancel_order k m2).1 ∧
  OrderManager.same_book (OrderManager.cancel_order k m1).2
    (OrderManager.cancel_order k m2).2.
Proof.
  unfold OrderManager.same_book, OrderManager.cancel_order.
  intros (Hb & Ha & Hc). rewrite Hb.
  destruct (OrderManager.orders_ m2 !! k); cbn; [|done].
  by rewrite Ha, Hc.
Qed.

Lemma same_book_load_line line (acc1 acc2 : Z * OrderManager.t) :
  acc1.1 = acc2.1 → OrderManager.same_book acc1.2 acc2.2 →
  (OrderManager.load_line stod line acc1).1 = (OrderManager.load_line stod line acc2).1 ∧
  OrderManager.same_book (OrderManager.load_line stod line acc1).2
    (OrderManager.load_line stod line acc2).2.
Proof.
  intros Hcount Hsame. unfold OrderManager.load_line.
  destruct (OrderManager.parse_csv_line stod line) as [o|]; [|done].
  destruct (same_book_add _ _ o Hsame) as [Hr Hsame'].
  destruct (OrderManager.add_order o acc1.2) as [r1 n1],
           (OrderManager.add_order o acc2.2) as [r2 n2].
  cbn in *. subst r2. by rewrite Hcount.
Qed.

Lemma same_book_load_rest (lines : list string) (acc1 acc2 : Z * OrderManager.t) :
  acc1.1 = acc2.1 → OrderManager.same_book acc1.2 acc2.2 →
  (OrderManager.load_rest stod lines acc1).1 = (OrderManager.load_rest stod lines acc2).1 ∧
  OrderManager.same_book (OrderManager.load_rest stod lines acc1).2
    (OrderManager.load_rest stod lines acc2).2.
Proof.
  revert acc1 acc2. induction lines as [|line lines IH]; intros acc1 acc2 Hc Hs;
    [done|].
  unfold OrderManager.load_rest. cbn [foldl].
  case_decide; [by apply IH|].
  destruct (same_book_load_line line acc1 acc2 Hc Hs). by apply IH.
Qed.

Lemma same_book_load file m1 m2 :
  OrderManager.same_book m1 m2 →
  (OrderManager.load_from_csv stod file m1).1 = (OrderManager.load_from_csv stod file m2).1 ∧
  OrderManager.same_book (OrderManager.load_from_csv stod file m1).2
    (OrderManager.load_from_csv stod file m2).2.
Proof.
  intros Hsame. destruct file as [content|]; [|done].
  unfold OrderManager.load_from_csv, OrderManager.load_lines. cbn [fst snd].
  destruct (same_book_load_rest
              (tl (Std.getline_all Std.newline content))
              (if OrderManager.looks_like_header (hd ""%string (Std.getline_all Std.newline content))
               then (0, m1)
               else OrderManager.load_line stod (hd ""%string (Std.getline_all Std.newline content)) (0, m1))
              (if OrderManager.looks_like_header (hd ""%string (Std.getline_all Std.newline content))
               then (0, m2)
               else OrderManager.load_line stod (hd ""%string (Std.getline_all Std.newline content)) (0, m2)))
    as [Hc Hs].
  - destruct (OrderManager.looks_like_header _); [done|].
    by apply same_book_load_line.
  - destruct (OrderManager.looks_like_header _); [done|].
    by apply same_book_load_line.
  - by rewrite Hc.
Qed.

Lemma same_book_step m1 m2 (c : OrderManager.call) :
  OrderManager.same_book m1 m2 →
  OrderManager.same_book (OrderManager.step stod m1 c) (OrderManager.step stod m2 c).
Proof.
  intros Hsame. destruct c; cbn [OrderManager.step].
  - by apply same_book_add.
  - by apply same_book_cancel.
  - done.
  - unfold OrderManager.same_book in *.
    destruct (print_snapshot_book m1) as (-> & -> & -> & _).
    by destruct (print_snapshot_book m2) as (-> & -> & -> & _).
  - by apply same_book_load.
  - done.
Qed.

Lemma same_book_run (calls : list OrderManager.call) m1 m2 :
  OrderManager.same_book m1 m2 →
  OrderManager.same_book (OrderManager.run stod calls m1) (OrderManager.run stod calls m2).
Proof.
  revert m1 m2. induction calls as [|c calls IH]; intros m1 m2 Hsame; [done|].
  unfold OrderManager.run. cbn [foldl]. apply IH. by apply same_book_step.
Qed.

(** X3: [clear] gives back a manager that behaves as a new one: after any
    further calls the two hold the same orders and counters, print the same
    statistics and answer [add_order], [cancel_order], [get_order] and
    [load_from_csv] alike. *)
Theorem clear_like_new m (calls : list OrderManager.call) :
  let cleared := OrderManager.run stod calls (OrderManager.clear m) in
  let fresh := OrderManager.run stod calls OrderManager.new in
  OrderManager.orders_ cleared = OrderManager.orders_ fresh ∧
  OrderManager.size cleared = OrderManager.size fresh ∧
  OrderManager.print_stats cleared = OrderManager.print_stats fresh ∧
  (∀ o, (OrderManager.add_order o cleared).1 = (OrderManager.add_order o fresh).1) ∧
  (∀ k, (OrderManager.cancel_order k cleared).1 = (OrderManager.cancel_order k fresh).1) ∧
  (∀ k, OrderManager.get_order k cleared = OrderManager.get_order k fresh) ∧
  (∀ file, (OrderManager.load_from_csv stod file cleared).1
           = (OrderManager.load_from_csv stod file fresh).1).
Proof.
  intros cleared fresh.
  assert (OrderManager.same_book cleared fresh) as Hsame
    by (by apply same_book_run).
  pose proof Hsame as (Hb & Ha & Hc).
  split; [done|].
  assert (OrderManager.size cleared = OrderManager.size fresh) as Hsize
    by (unfold OrderManager.size; by rewrite Hb).
  split; [done|]. split.
  { unfold OrderManager.print_stats, OrderManager.stats_lines.
    by rewrite Hsize, Ha, Hc. }
  split; [intros o; by apply same_book_add|].
  split; [intros k; by apply same_book_cancel|].
  split; [intros k; unfold OrderManager.get_order; by rewrite Hb|].
  intros file. by apply same_book_load.
Qed.

(** X4: cancelling a live id and adding an order under the same id
    replaces the stored order: both calls succeed, the book is the old one
    with that entry overwritten, and its size is unchanged. *)
Theorem cancel_then_add_replaces m o old :
  OrderManager.get_order (Order.id o) m = Some old →
  let r1 := OrderManager.cancel_order (Order.id o) m in
  let r2 := OrderManager.add_order o r1.2 in
  r1.1 = true ∧ r2.1 = true ∧
  OrderManager.orders_ r2.2 = <[Order.id o := o]> (OrderManager.orders_ m) ∧
  OrderManager.get_order (Order.id o) r2.2 = Some o ∧
  base.size (OrderManager.orders_ r2.2) = base.size (OrderManager.orders_ m).
Proof.
  intros Hlive r1 r2.
  destruct (cancel_order_live m _ _ Hlive) as [Hr1 Hb1].
  assert (OrderManager.get_order (Order.id o) r1.2 = None) as Hgone.
  { unfold OrderManager.get_order. subst r1. rewrite Hb1. apply lookup_delete_eq. }
  destruct (add_order_fresh _ _ Hgone) as [Hr2 Hb2].
  assert (OrderManager.orders_ r2.2 = <[Order.id o := o]> (OrderManager.orders_ m))
    as Hbook.
  { subst r2 r1. rewrite Hb2, Hb1. apply insert_delete_eq. }
  split; [done|]. split; [done|]. split; [done|].
  unfold OrderManager.get_order. rewrite Hbook. split; [apply lookup_insert_eq|].
  rewrite map_size_insert_Some; [done|]. by eexists.
Qed.

Lemma cancel_then_add_replaces_witness :
  let r1 := OrderManager.cancel_order 1 Fixture.two_orders in
  let r2 := OrderManager.add_order Fixture.order1_again r1.2 in
  r1.1 = true ∧ r2.1 = true ∧
  OrderManager.orders_ r2.2
    = <[1%N := Fixture.order1_again]> (OrderManager.orders_ Fixture.two_orders) ∧
  OrderManager.get_order 1 r2.2 = Some Fixture.order1_again ∧
  base.size (OrderManager.orders_ r2.2)
    = base.size (OrderManager.orders_ Fixture.two_orders).
Proof.
  apply (cancel_then_add_replaces Fixture.two_orders Fixture.order1_again
           Fixture.order1).
  reflexivity.
Defined.

(** X5: two [add_order] calls with different ids can be swapped: each call
    returns what it returns in the other order and the manager ends up the
    same. *)
Theorem add_order_commutes m a b :
  Order.id a ≠ Order.id b →
  (OrderManager.add_order b (OrderManager.add_order a m).2).2
    = (OrderManager.add_order a (OrderManager.add_order b m).2).2 ∧
  (OrderManager.add_order a (OrderManager.add_order b m).2).1
    = (OrderManager.add_order a m).1 ∧
  (OrderManager.add_order b (OrderManager.add_order a m).2).1
    = (OrderManager.add_order b m).1.
Proof.
  intros Hne. unfold OrderManager.add_order.
  destruct (OrderManager.orders_ m !! Order.id a) eqn:Ha,
           (OrderManager.orders_ m !! Order.id b) eqn:Hb;
    cbn [fst snd OrderManager.orders_ OrderManager.order_ptrs_
         OrderManager.snapshot_dirty_ OrderManager.total_orders_added_
         OrderManager.total_orders_cancelled_];
    rewrite ?Ha, ?Hb, ?lookup_insert_ne by done; rewrite ?Ha, ?Hb; try done.
  split; [|done]. cbn [snd]. f_equal. by apply insert_insert_ne.
Qed.

Lemma add_order_commutes_witness :
  (OrderManager.add_order Fixture.order2
     (OrderManager.add_order Fixture.order1 OrderManager.new).2).2
    = (OrderManager.add_order Fixture.order1
         (OrderManager.add_order Fixture.order2 OrderManager.new).2).2 ∧
  (OrderManager.add_order Fixture.order1
     (OrderManager.add_order Fixture.order2 OrderManager.new).2).1
    = (OrderManager.add_order Fixture.order1 OrderManager.new).1 ∧
  (OrderManager.add_order Fixture.order2
     (OrderManager.add_order Fixture.order1 OrderManager.new).2).1
    = (OrderManager.add_order Fixture.order2 OrderManager.new).1.
Proof.
  apply (add_order_commutes OrderManager.new Fixture.order1 Fixture.order2).
  discriminate.
Defined.

End Composition.

(** ** Numbers in CSV fields *)

Section CsvFields.

Variable stod : string → option float.

Implicit Types (m : OrderManager.t) (o : Order.t) (s : string) (n v : N).

Lemma digit_first_char (c : ascii) s :
  Std.isdigit c = true →
  Std.skip_spaces (String c s) = String c s ∧
  Std.stoull (String c s)
  = (if (Std.uint64_max <? Std.read_digits 0 (String c s))%N then None
     else Some (Std.read_digits 0 (String c s))) ∧
  Std.stoull (String "-" (String c s))
  = (if (Std.uint64_max <? Std.read_digits 0 (String c s))%N then None
     else Some ((2 ^ 64 - Std.read_digits 0 (String c s)) mod 2 ^ 64)%N).
Proof.
  intros Hc.
  destruct c as [[] [] [] [] [] [] [] []]; try discriminate Hc;
    unfold Std.stoull; cbn [Std.skip_spaces Std.isspace];
    repeat split; reflexivity.
Qed.

(** [std::stoull] and [std::stoul] read back what [operator<<] wrote, and
    with a minus sign in front they give the negation modulo [2^64]. *)
Lemma stoull_put_unsigned n :
  (n < 2 ^ 64)%N →
  Std.stoull (Std.put_unsigned n) = Some n ∧
  Std.stoull (String "-" (Std.put_unsigned n)) = Some ((2 ^ 64 - n) mod 2 ^ 64)%N.
Proof.
  intros Hn. destruct (put_unsigned_digits n) as (Hall & Hne & Hval).
  destruct (Std.put_unsigned n) as [|c s] eqn:Htext; [done|].
  cbn [Std.all_digits] in Hall. apply andb_true_iff in Hall as [Hc _].
  destruct (digit_first_char c s Hc) as (_ & -> & ->). rewrite Hval.
  assert ((Std.uint64_max <? n)%N = false) as ->; [|done].
  apply N.ltb_ge. unfold Std.uint64_max. lia.
Qed.

Lemma has_char_app (c : ascii) s1 s2 :
  Std.has_char c (s1 ++ s2)%string = Std.has_char c s1 || Std.has_char c s2.
Proof.
  induction s1 as [|c1 s1 IH]; [done|].
  rewrite string_app_cons. cbn [Std.has_char]. rewrite IH. by rewrite orb_assoc.
Qed.

Lemma all_digits_has_char (c : ascii) s :
  Std.isdigit c = false → Std.all_digits s = true → Std.has_char c s = false.
Proof.
  intros Hc. induction s as [|c' s IH]; [done|]. cbn.
  intros [Hc' Hs]%andb_true_iff. rewrite IH by done.
  destruct (Ascii.eqb_spec c' c) as [->|]; [congruence|done].
Qed.

Lemma put_unsigned_has_char (c : ascii) n :
  Std.isdigit c = false → Std.has_char c (Std.put_unsigned n) = false.
Proof.
  intros Hc. apply all_digits_has_char; [done|]. apply put_unsigned_digits.
Qed.

Lemma csv_line_fields (f0 f1 f2 f3 : string) :
  Std.has_char "," f0 = false → Std.has_char "," f1 = false →
  Std.has_char "," f2 = false → Std.has_char "," f3 = false →
  f3 ≠ ""%string →
  Std.getline_all ","%char (Fixture.csv_line f0 f1 f2 f3) = [f0; f1; f2; f3].
Proof.
  intros H0 H1 H2 H3 Hne. unfold Fixture.csv_line, Std.getline_all.
  change (f0 ++ "," ++ f1 ++ "," ++ f2 ++ "," ++ f3)%string
    with (f0 ++ String "," (f1 ++ String "," (f2 ++ String "," f3)))%string.
  rewrite !getline_all_from_line by done.
  rewrite getline_all_from_last by done.
  case_decide; done.
Qed.

(** A line of four comma-free fields that convert, the last one not
    empty. *)
Lemma parse_csv_line_fields (f0 f1 f2 f3 : string) (i q sd : N) (p : float) :
  Std.has_char "," f0 = false → Std.has_char "," f1 = false →
  Std.has_char "," f2 = false → Std.has_char "," f3 = false →
  f3 ≠ ""%string →
  Std.stoull f0 = Some i → stod f1 = Some p →
  Std.stoul f2 = Some q → Std.stoul f3 = Some sd →
  OrderManager.parse_csv_line stod (Fixture.csv_line f0 f1 f2 f3)
  = if (1 <? Std.to_uint32 sd)%N then None
    else Some (Order.mk i p (Std.to_uint32 q) (Std.to_uint32 sd)).
Proof.
  intros H0 H1 H2 H3 Hne Hi Hp Hq Hs. unfold OrderManager.parse_csv_line.
  rewrite csv_line_fields by done.
  cbn [lookup list_lookup mbind option_bind].
  rewrite Hi, Hp, Hq, Hs. done.
Qed.

Lemma stoull_range s v : Std.stoull s = Some v → (v < 2 ^ 64)%N.
Proof.
  unfold Std.stoull.
  destruct (Std.skip_spaces s) as [|c r]; [done|].
  assert (∀ (neg : bool) s2,
            (if Std.starts_with_digit s2
             then if (Std.uint64_max <? Std.read_digits 0 s2)%N then None
                  else Some (if neg then (2 ^ 64 - Std.read_digits 0 s2) mod 2 ^ 64
                             else Std.read_digits 0 s2)%N
             else None) = Some v → (v < 2 ^ 64)%N) as Hcore.
  { intros neg s2. destruct (Std.starts_with_digit s2); [|done].
    destruct (Std.uint64_max <? Std.read_digits 0 s2)%N eqn:Hmax; [done|].
    apply N.ltb_ge in Hmax. unfold Std.uint64_max in Hmax.
    intros [= <-]. destruct neg; [apply N.mod_lt|]; lia. }
  destruct c as [[] [] [] [] [] [] [] []];
    first [apply (Hcore false) | apply (Hcore true)].
Qed.

(** X6: every order the CSV parser makes fits the [Order] struct and has
    side 0 or 1, so it is a buy or a sell and never both; loading a file
    into a book of such orders leaves a book of such orders. *)
Theorem loaded_orders_well_formed (content : string) m :
  map_Forall (λ _ o, (Order.side o ≤ 1)%N) (OrderManager.orders_ m) →
  (∀ line o,
     OrderManager.parse_csv_line stod line = Some o →
     (Order.id o < 2 ^ 64)%N ∧ (Order.quantity o < 2 ^ 32)%N ∧
     (Order.side o ≤ 1)%N ∧ Order.is_buy o = negb (Order.is_sell o)) ∧
  map_Forall (λ _ o, (Order.side o ≤ 1)%N)
    (OrderManager.orders_ (OrderManager.load_from_csv stod (Some content) m).2).
Proof.
  intros Hbook.
  assert (∀ line o,
     OrderManager.parse_csv_line stod line = Some o →
     (Order.id o < 2 ^ 64)%N ∧ (Order.quantity o < 2 ^ 32)%N ∧
     (Order.side o ≤ 1)%N ∧ Order.is_buy o = negb (Order.is_sell o)) as Hparse.
  { intros line o
      (f0 & f1 & f2 & f3 & more & n2 & n3 & _ & Hid & _ & _ & Hq & _ & Hs & Hle)
      %parse_csv_line_Some.
    split; [by eapply stoull_range|]. split.
    - rewrite Hq. unfold Std.to_uint32. apply N.mod_lt. lia.
    - split; [done|]. unfold Order.is_buy, Order.is_sell.
      assert (Order.side o = 0 ∨ Order.side o = 1)%N as [->| ->] by lia; done. }
  split; [done|].
  assert (∀ line (acc : Z * OrderManager.t),
            map_Forall (λ _ o, (Order.side o ≤ 1)%N) (OrderManager.orders_ acc.2) →
            map_Forall (λ _ o, (Order.side o ≤ 1)%N)
              (OrderManager.orders_ (OrderManager.load_line stod line acc).2))
    as Hline.
  { intros line acc Hacc. unfold OrderManager.load_line.
    destruct (OrderManager.parse_csv_line stod line) as [o|] eqn:Ho; [|done].
    unfold OrderManager.add_order.
    destruct (OrderManager.orders_ acc.2 !! Order.id o) eqn:Hk; [done|].
    cbn. apply map_Forall_insert; [done|]. split; [|done].
    by apply (Hparse line o). }
  unfold OrderManager.load_from_csv, OrderManager.load_lines. cbn [snd].
  generalize (tl (Std.getline_all Std.newline content)).
  generalize (hd ""%string (Std.getline_all Std.newline content)).
  intros first rest.
  assert (map_Forall (λ _ o, (Order.side o ≤ 1)%N)
            (OrderManager.orders_
               (if OrderManager.looks_like_header first then (0, m)
                else OrderManager.load_line stod first (0, m)).2)) as Hstart.
  { destruct (OrderManager.looks_like_header first); [done|]. by apply Hline. }
  revert Hstart.
  generalize (if OrderManager.looks_like_header first then (0, m)
              else OrderManager.load_line stod first (0, m)).
  induction rest as [|line rest IH]; intros acc Hacc; [done|].
  unfold OrderManager.load_rest. cbn [foldl]. apply IH.
  case_decide; [done|]. by apply Hline.
Qed.

(** X7: a record written as [id,price,quantity,side] in decimal, for an
    order that fits the struct and has side 0 or 1, is parsed back to
    exactly that order, whenever [std::stod] reads the price text as the
    price. *)
Theorem csv_record_round_trip o (price_text : string) :
  (Order.id o < 2 ^ 64)%N → (Order.quantity o < 2 ^ 32)%N → (Order.side o ≤ 1)%N →
  Std.has_char "," price_text = false →
  stod price_text = Some (Order.price o) →
  OrderManager.parse_csv_line stod (Fixture.csv_record (o, price_text)) = Some o.
Proof.
  intros Hid Hq Hs Hcomma Hprice. unfold Fixture.csv_record. cbn [fst snd].
  rewrite (parse_csv_line_fields _ _ _ _ (Order.id o) (Order.quantity o)
             (Order.side o) (Order.price o));
    try done; try (by apply put_unsigned_has_char);
    try (apply stoull_put_unsigned; lia).
  - unfold Std.to_uint32. rewrite !N.mod_small by lia.
    apply N.ltb_ge in Hs. rewrite Hs. by destruct o.
  - apply put_unsigned_digits.
Qed.

(** X8: the quantity and side fields are read as 64-bit numbers, a minus
    sign negating modulo [2^64], and cut to 32 bits before the side is
    checked: the line is accepted exactly when the cut side is 0 or 1, and
    the stored quantity is the cut one (so the quantity text "-1" is
    stored as 4294967295 and the side text "4294967296" is a buy). *)
Theorem csv_fields_wrap (id q sd : N) (minus_q minus_s : bool)
    (price_text : string) (price : float) :
  (id < 2 ^ 64)%N → (q < 2 ^ 64)%N → (sd < 2 ^ 64)%N →
  Std.has_char "," price_text = false →
  stod price_text = Some price →
  let text (minus : bool) (n : N) :=
    if minus then String "-" (Std.put_unsigned n) else Std.put_unsigned n in
  let value (minus : bool) (n : N) :=
    Std.to_uint32 (if minus then (2 ^ 64 - n) mod 2 ^ 64 else n)%N in
  OrderManager.parse_csv_line stod
    (Fixture.csv_line (Std.put_unsigned id) price_text (text minus_q q) (text minus_s sd))
  = if (1 <? value minus_s sd)%N then None
    else Some (Order.mk id price (value minus_q q) (value minus_s sd)).
Proof.
  intros Hid Hq Hs Hcomma Hprice text value.
  assert (∀ (minus : bool) n, (n < 2 ^ 64)%N →
            Std.has_char "," (text minus n) = false ∧
            text minus n ≠ ""%string ∧
            Std.stoul (text minus n)
            = Some (if minus then (2 ^ 64 - n) mod 2 ^ 64 else n)%N) as Htext.
  { intros minus n Hn. subst text. cbn beta.
    destruct (stoull_put_unsigned n Hn) as [Hplain Hminus].
    destruct minus.
    - split; [|split; [done|exact Hminus]].
      cbn [Std.has_char]. by rewrite put_unsigned_has_char.
    - split; [by apply put_unsigned_has_char|].
      split; [apply put_unsigned_digits|exact Hplain]. }
  destruct (Htext minus_q q Hq) as (Hq1 & _ & Hq3).
  destruct (Htext minus_s sd Hs) as (Hs1 & Hs2 & Hs3).
  apply parse_csv_line_fields; try done.
  - by apply put_unsigned_has_char.
  - by apply stoull_put_unsigned.
Qed.

End CsvFields.

Lemma loaded_orders_well_formed_witness :
  map_Forall (λ _ o, (Order.side o ≤ 1)%N)
    (OrderManager.orders_
       (OrderManager.load_from_csv Std.stod_decimal (Some Fixture.test_file)
          OrderManager.new).2).
Proof.
  refine (proj2 (loaded_orders_well_formed Std.stod_decimal Fixture.test_file
                   OrderManager.new _)).
  apply map_Forall_empty.
Defined.

Lemma csv_record_round_trip_witness :
  OrderManager.parse_csv_line Std.stod_decimal "1,150.50,100,0" = Some Fixture.order1.
Proof.
  apply (csv_record_round_trip Std.stod_decimal Fixture.order1 "150.50"%string);
    reflexivity || (vm_compute; discriminate) || done.
Defined.

Lemma csv_fields_wrap_witness :
  OrderManager.parse_csv_line Std.stod_decimal "5,100,-1,4294967296"
  = Some (Order.mk 5 100 4294967295 0).
Proof.
  apply (csv_fields_wrap Std.stod_decimal 5 1 4294967296 true false "100"%string
           100%float); reflexivity.
Defined.

(** ** Loading whole files *)

Section CsvFiles.

Variable stod : string → option float.

Implicit Types (m : OrderManager.t) (o : Order.t) (k : N) (line : string).

Lemma run_adds_keeps (orders : list Order.t) m k old :
  OrderManager.get_order k m = Some old →
  OrderManager.get_order k (OrderManager.run stod (OrderManager.AddOrder <$> orders) m)
  = Some old.
Proof.
  revert m. induction orders as [|o orders IH]; intros m Hk; [done|].
  cbn [fmap list_fmap OrderManager.run foldl OrderManager.step].
  apply IH. by apply add_order_keeps.
Qed.

Lemma run_adds_lookup (orders : list Order.t) m o :
  NoDup (Order.id <$> orders) →
  (∀ o', o' ∈ orders → OrderManager.get_order (Order.id o') m = None) →
  o ∈ orders →
  OrderManager.get_order (Order.id o)
    (OrderManager.run stod (OrderManager.AddOrder <$> orders) m) = Some o.
Proof.
  revert m. induction orders as [|o' orders IH]; intros m Hnodup Hfresh Hin;
    [by apply elem_of_nil in Hin|].
  rewrite fmap_cons in Hnodup. apply NoDup_cons in Hnodup as [Hhead Hnodup].
  cbn [fmap list_fmap OrderManager.run foldl OrderManager.step].
  destruct (add_order_fresh m o' (Hfresh o' ltac:(left))) as [_ Hbook].
  apply elem_of_cons in Hin as [->|Hin].
  - apply run_adds_keeps. unfold OrderManager.get_order. rewrite Hbook.
    apply lookup_insert_eq.
  - apply IH; [done| |done].
    intros o'' Ho''. unfold OrderManager.get_order. rewrite Hbook.
    rewrite lookup_insert_ne.
    + apply Hfresh. by right.
    + intros Heq. apply Hhead. rewrite Heq. by apply list_elem_of_fmap_2.
Qed.

(** What makes a record a faithful text of its order. *)
Lemma csv_record_line (record : Order.t * string) :
  (Order.id record.1 < 2 ^ 64)%N → (Order.quantity record.1 < 2 ^ 32)%N →
  (Order.side record.1 ≤ 1)%N →
  Std.has_char "," record.2 = false → Std.has_char Std.newline record.2 = false →
  stod record.2 = Some (Order.price record.1) →
  Std.has_char Std.newline (Fixture.csv_record record) = false ∧
  Fixture.csv_record record ≠ ""%string ∧
  OrderManager.parse_csv_line stod (Fixture.csv_record record) = Some record.1.
Proof.
  intros Hid Hq Hs Hcomma Hnl Hprice. destruct record as [o price_text].
  cbn [fst snd] in *. split; [|split].
  - unfold Fixture.csv_record, Fixture.csv_line. cbn [fst snd].
    rewrite !has_char_app, Hnl, !put_unsigned_has_char by done. done.
  - unfold Fixture.csv_record, Fixture.csv_line. cbn [fst snd].
    destruct (put_unsigned_digits (Order.id o)) as (_ & Hne & _).
    destruct (Std.put_unsigned (Order.id o)); done.
  - by apply csv_record_round_trip.
Qed.

Lemma load_rest_records (records : list (Order.t * string)) (acc : Z * OrderManager.t) :
  Forall (λ record,
            Fixture.csv_record record ≠ ""%string ∧
            OrderManager.parse_csv_line stod (Fixture.csv_record record)
            = Some record.1) records →
  (OrderManager.load_rest stod (Fixture.csv_record <$> records) acc).2
  = OrderManager.run stod (OrderManager.AddOrder <$> records.*1) acc.2.
Proof.
  intros Hrecords. revert acc.
  induction Hrecords as [|record records [Hne Hparse] _ IH]; intros acc; [done|].
  cbn [fmap list_fmap OrderManager.run foldl OrderManager.step].
  unfold OrderManager.load_rest. cbn [foldl]. fold (OrderManager.load_rest stod).
  case_decide; [done|].
  change (foldl _ ?a (Fixture.csv_record <$> records))
    with (OrderManager.load_rest stod (Fixture.csv_record <$> records) a).
  rewrite IH. unfold OrderManager.run. f_equal.
  unfold OrderManager.load_line. rewrite Hparse.
  by destruct (OrderManager.add_order record.1 acc.2).
Qed.

(** X9: loading a file made of a header line and one well-formed record
    per order does to the manager exactly what calling [add_order] on those
    orders, in file order, does; when the ids are pairwise different and
    none is live, the count returned is the number of records and every
    order can be looked up afterwards. *)
Theorem load_is_add_each (header : string) (records : list (Order.t * string)) m :
  OrderManager.looks_like_header header = true →
  Std.has_char Std.newline header = false →
  Forall (λ record,
            (Order.id record.1 < 2 ^ 64)%N ∧ (Order.quantity record.1 < 2 ^ 32)%N ∧
            (Order.side record.1 ≤ 1)%N ∧
            Std.has_char "," record.2 = false ∧
            Std.has_char Std.newline record.2 = false ∧
            stod record.2 = Some (Order.price record.1)) records →
  let r := OrderManager.load_from_csv stod
             (Some (Std.endl_text (header :: (Fixture.csv_record <$> records)))) m in
  r.2 = OrderManager.run stod (OrderManager.AddOrder <$> records.*1) m ∧
  (NoDup (Order.id <$> records.*1) →
   (∀ o, o ∈ records.*1 → OrderManager.get_order (Order.id o) m = None) →
   r.1 = Some (OrderManager.wrap64 (Z.of_nat (length records))) ∧
   ∀ o, o ∈ records.*1 → OrderManager.get_order (Order.id o) r.2 = Some o).
Proof.
  intros Hheader Hnl Hrecords r.
  assert (Forall (λ record,
            Std.has_char Std.newline (Fixture.csv_record record) = false ∧
            Fixture.csv_record record ≠ ""%string ∧
            OrderManager.parse_csv_line stod (Fixture.csv_record record)
            = Some record.1) records) as Hlines.
  { eapply Forall_impl; [exact Hrecords|].
    intros record (?&?&?&?&?&?). by apply csv_record_line. }
  assert (r = (Some (OrderManager.load_lines stod
                       (header :: (Fixture.csv_record <$> records)) m).1,
               (OrderManager.load_lines stod
                  (header :: (Fixture.csv_record <$> records)) m).2)) as Hr.
  { subst r. apply load_from_csv_lines. constructor; [done|].
    rewrite Forall_fmap. eapply Forall_impl; [exact Hlines|]. by intros ? [? _]. }
  assert (r.2 = OrderManager.run stod (OrderManager.AddOrder <$> records.*1) m)
    as Hstate.
  { rewrite Hr. cbn [snd]. unfold OrderManager.load_lines. cbn [hd tl].
    rewrite Hheader. rewrite load_rest_records; [done|].
    eapply Forall_impl; [exact Hlines|]. by intros ? [_ ?]. }
  split; [done|]. intros Hnodup Hfresh. split.
  - rewrite Hr. cbn [fst]. f_equal. rewrite load_lines_count.
    rewrite Hr in Hstate. cbn [snd] in Hstate. rewrite Hstate.
    destruct (run_adds_fresh stod records.*1 m Hnodup Hfresh) as [_ Hsize].
    rewrite Hsize, length_fmap. f_equal. lia.
  - intros o Ho. rewrite Hstate. by apply run_adds_lookup.
Qed.

Lemma load_line_live line (acc : Z * OrderManager.t) o :
  OrderManager.parse_csv_line stod line = Some o →
  is_Some (OrderManager.orders_ (OrderManager.load_line stod line acc).2 !! Order.id o).
Proof.
  intros Hparse. unfold OrderManager.load_line, OrderManager.add_order.
  rewrite Hparse.
  destruct (OrderManager.orders_ acc.2 !! Order.id o) eqn:Hk; cbn.
  - by rewrite Hk.
  - rewrite lookup_insert_eq. by eexists.
Qed.

Lemma load_rest_mono (lines : list string) (acc : Z * OrderManager.t) k :
  is_Some (OrderManager.orders_ acc.2 !! k) →
  is_Some (OrderManager.orders_ (OrderManager.load_rest stod lines acc).2 !! k).
Proof.
  apply (load_rest_preserves stod (λ m, is_Some (OrderManager.orders_ m !! k))).
  intros m o [old Hold]. exists old. by apply add_order_keeps.
Qed.

Lemma load_rest_live (lines : list string) (acc : Z * OrderManager.t) line o :
  line ∈ lines →
  OrderManager.parse_csv_line stod line = Some o →
  is_Some (OrderManager.orders_ (OrderManager.load_rest stod lines acc).2 !! Order.id o).
Proof.
  intros Hin Hparse. revert acc.
  induction lines as [|l lines IH]; intros acc; [by apply elem_of_nil in Hin|].
  unfold OrderManager.load_rest. cbn [foldl].
  change (foldl _ ?a lines) with (OrderManager.load_rest stod lines a).
  apply elem_of_cons in Hin as [->|Hin]; [|by apply IH].
  case_decide as Hempty.
  - subst l. by rewrite parse_csv_line_empty in Hparse.
  - by apply load_rest_mono, load_line_live.
Qed.

Lemma load_line_noop line (acc : Z * OrderManager.t) :
  (∀ o, OrderManager.parse_csv_line stod line = Some o →
        is_Some (OrderManager.orders_ acc.2 !! Order.id o)) →
  OrderManager.load_line stod line acc = acc.
Proof.
  intros Hlive. unfold OrderManager.load_line, OrderManager.add_order.
  destruct (OrderManager.parse_csv_line stod line) as [o|]; [|done].
  destruct (Hlive o eq_refl) as [old ->]. by destruct acc.
Qed.

Lemma load_rest_noop (lines : list string) (acc : Z * OrderManager.t) :
  (∀ line o, line ∈ lines → OrderManager.parse_csv_line stod line = Some o →
             is_Some (OrderManager.orders_ acc.2 !! Order.id o)) →
  OrderManager.load_rest stod lines acc = acc.
Proof.
  induction lines as [|l lines IH]; intros Hlive; [done|].
  unfold OrderManager.load_rest. cbn [foldl].
  change (foldl _ ?a lines) with (OrderManager.load_rest stod lines a).
  assert (OrderManager.load_line stod l acc = acc) as Hl.
  { apply load_line_noop. intros o. apply Hlive. left. }
  case_decide; rewrite ?Hl; apply IH; intros line o Hin; apply Hlive; by right.
Qed.

(** X10: loading is idempotent.  Loading the same file once more right
    after a load adds nothing: the second call returns 0 and leaves the
    manager, counters included, as the first call left it. *)
Theorem load_twice_adds_nothing (content : string) m :
  let once := OrderManager.load_from_csv stod (Some content) m in
  OrderManager.load_from_csv stod (Some content) once.2 = (Some 0, once.2).
Proof.
  cbn zeta. unfold OrderManager.load_from_csv, OrderManager.load_lines.
  cbn [fst snd].
  set (first := hd ""%string (Std.getline_all Std.newline content)).
  set (rest := tl (Std.getline_all Std.newline content)).
  set (start := if OrderManager.looks_like_header first then (0, m)
                else OrderManager.load_line stod first (0, m)).
  set (once := OrderManager.load_rest stod rest start).
  assert ((if OrderManager.looks_like_header first then (0, once.2)
           else OrderManager.load_line stod first (0, once.2)) = (0, once.2))
    as ->.
  { destruct (OrderManager.looks_like_header first) eqn:Hhead; [done|].
    apply load_line_noop. intros o Ho. cbn [snd]. subst once.
    apply load_rest_mono. subst start. by apply load_line_live. }
  rewrite load_rest_noop; [done|].
  intros line o Hin Ho. cbn [snd]. subst once. by eapply load_rest_live.
Qed.

End CsvFiles.

Lemma load_is_add_each_witness :
  let r := OrderManager.load_from_csv Std.stod_decimal (Some Fixture.test_file)
             OrderManager.new in
  r.2 = OrderManager.run Std.stod_decimal
          [OrderManager.AddOrder Fixture.order1; OrderManager.AddOrder Fixture.order2]
          OrderManager.new ∧
  r.1 = Some 2.
Proof.
  destruct (load_is_add_each Std.stod_decimal "id,price,quantity,side"%string
              Fixture.test_records OrderManager.new) as [Hstate Hcount].
  - reflexivity.
  - reflexivity.
  - repeat constructor; vm_compute; discriminate.
  - split; [exact Hstate|].
    destruct Hcount as [Hcount _]; [| |exact Hcount].
    + apply NoDup_cons. split; [|apply NoDup_singleton].
      intros H%list_elem_of_singleton. discriminate H.
    + intros o _. apply lookup_empty.
Defined.

(** ** Generated orders and the benchmark *)

Section Benchmark.

Implicit Types (m : OrderManager.t) (k i : N) (draws : list Main.draw).

Lemma generate_from_spec draws i m :
  (∀ j, (i < j)%N → OrderManager.get_order j m = None) →
  let m' := Main.generate_from i draws m in
  (∀ k, OrderManager.get_order k m'
        = if decide (k ≤ i)%N then OrderManager.get_order k m
          else (λ d : Main.draw, Order.mk k d.1.1 d.1.2 d.2)
                 <$> draws !! N.to_nat (k - i - 1)) ∧
  base.size (OrderManager.orders_ m')
    = (base.size (OrderManager.orders_ m) + length draws)%nat ∧
  OrderManager.total_orders_added_ m'
    = (if draws is [] then OrderManager.total_orders_added_ m
       else OrderManager.wrap64
              (OrderManager.total_orders_added_ m + Z.of_nat (length draws))) ∧
  OrderManager.total_orders_cancelled_ m' = OrderManager.total_orders_cancelled_ m.
Proof.
  revert i m. induction draws as [|[[price qty] side] draws IH]; intros i m Hfresh.
  - cbn. split; [|split; [lia|done]].
    intros k. case_decide as Hk; [done|].
    rewrite Hfresh; [done|lia].
  - cbn [Main.generate_from].
    set (o := Order.mk (i + 1) price qty side).
    assert (OrderManager.get_order (Order.id o) m = None) as Ho
      by (apply Hfresh; cbn; lia).
    destruct (add_order_fresh m o Ho) as [_ Hbook].
    assert (OrderManager.total_orders_added_ (OrderManager.add_order o m).2
            = OrderManager.wrap64 (OrderManager.total_orders_added_ m + 1)
            ∧ OrderManager.total_orders_cancelled_ (OrderManager.add_order o m).2
              = OrderManager.total_orders_cancelled_ m) as [Hadd Hcan].
    { unfold OrderManager.add_order. unfold OrderManager.get_order in Ho.
      by rewrite Ho. }
    destruct (IH (i + 1)%N (OrderManager.add_order o m).2) as (Hget & Hsize & Ha & Hc).
    { intros j Hj. unfold OrderManager.get_order. rewrite Hbook.
      rewrite lookup_insert_ne by (cbn; lia). apply Hfresh. lia. }
    cbn zeta. split; [|split; [|split]].
    + intros k. rewrite Hget. unfold OrderManager.get_order at 1. rewrite Hbook.
      destruct (decide (k ≤ i)%N) as [Hle|Hgt].
      * rewrite decide_True by lia. rewrite lookup_insert_ne by (cbn; lia). done.
      * destruct (decide (k = i + 1)%N) as [->|Hne].
        -- rewrite decide_True by lia. rewrite lookup_insert_eq.
           replace (N.to_nat (i + 1 - i - 1)) with 0%nat by lia. done.
        -- rewrite decide_False by lia.
           replace (N.to_nat (k - i - 1)) with (S (N.to_nat (k - (i + 1) - 1)))
             by lia.
           done.
    + rewrite Hsize, Hbook, map_size_insert_None by done. cbn [length]. lia.
    + rewrite Ha, Hadd. unfold OrderManager.wrap64.
      destruct draws as [|d draws]; [cbn [length]; f_equal; lia|].
      rewrite Zplus_mod_idemp_l. f_equal. cbn [length]. lia.
    + by rewrite Hc, Hcan.
Qed.

(** X11: on a manager with an empty book, [generate_random_orders] stores
    one order per drawn round, with ids 1 to [count] in the order the
    values were drawn, and nothing else. *)
Theorem generate_fills_ids draws m :
  OrderManager.orders_ m = ∅ →
  let m' := Main.generate_random_orders draws m in
  (∀ k, OrderManager.get_order k m'
        = if decide (1 ≤ k)%N
          then (λ d : Main.draw, Order.mk k d.1.1 d.1.2 d.2)
                 <$> draws !! N.to_nat (k - 1)
          else None) ∧
  base.size (OrderManager.orders_ m') = length draws.
Proof.
  intros Hempty m'.
  assert (∀ j, OrderManager.get_order j m = None) as Hnone.
  { intros j. unfold OrderManager.get_order. by rewrite Hempty. }
  destruct (generate_from_spec draws 0 m (λ j _, Hnone j)) as (Hget & Hsize & _).
  fold (Main.generate_random_orders draws m) in Hget, Hsize. fold m' in Hget, Hsize.
  split.
  - intros k. rewrite Hget, Hnone.
    destruct (decide (k ≤ 0)%N), (decide (1 ≤ k)%N); try lia; [done|].
    by replace (k - 0 - 1)%N with (k - 1)%N by lia.
  - rewrite Hsize, Hempty, map_size_empty. lia.
Qed.

Lemma cancel_first_succ (n : nat) m :
  Main.cancel_first (S n) m
  = (OrderManager.cancel_order (N.of_nat (S n)) (Main.cancel_first n m)).2.
Proof.
  unfold Main.cancel_first. rewrite seq_S, foldl_app. done.
Qed.

Lemma cancel_first_spec (n : nat) m :
  (∀ k, (1 ≤ k ≤ N.of_nat n)%N → is_Some (OrderManager.get_order k m)) →
  let m' := Main.cancel_first n m in
  (∀ k, OrderManager.get_order k m'
        = if decide (1 ≤ k ≤ N.of_nat n)%N then None
          else OrderManager.get_order k m) ∧
  (base.size (OrderManager.orders_ m') + n)%nat = base.size (OrderManager.orders_ m) ∧
  OrderManager.total_orders_added_ m' = OrderManager.total_orders_added_ m ∧
  OrderManager.total_orders_cancelled_ m'
    = (if n is O then OrderManager.total_orders_cancelled_ m
       else OrderManager.wrap64
              (OrderManager.total_orders_cancelled_ m + Z.of_nat n)).
Proof.
  induction n as [|n IH]; intros Hlive.
  - cbn. split; [|split; [lia|done]]. intros k. case_decide; [lia|done].
  - destruct IH as (Hget & Hsize & Ha & Hc).
    { intros k Hk. apply Hlive. lia. }
    cbn zeta. rewrite cancel_first_succ.
    set (mid := Main.cancel_first n m) in *.
    assert (is_Some (OrderManager.get_order (N.of_nat (S n)) mid)) as [o Ho].
    { rewrite Hget, decide_False by lia. apply Hlive. lia. }
    destruct (cancel_order_live mid _ o Ho) as [_ Hbook].
    assert (OrderManager.total_orders_added_
              (OrderManager.cancel_order (N.of_nat (S n)) mid).2
            = OrderManager.total_orders_added_ mid
            ∧ OrderManager.total_orders_cancelled_
                (OrderManager.cancel_order (N.of_nat (S n)) mid).2
              = OrderManager.wrap64 (OrderManager.total_orders_cancelled_ mid + 1))
      as [Hadd Hcan].
    { unfold OrderManager.cancel_order. unfold OrderManager.get_order in Ho.
      by rewrite Ho. }
    split; [|split; [|split]].
    + intros k. unfold OrderManager.get_order at 1. rewrite Hbook.
      destruct (decide (k = N.of_nat (S n))) as [->|Hne].
      * rewrite lookup_delete_eq, decide_True by lia. done.
      * rewrite lookup_delete_ne by done.
        fold (OrderManager.get_order k mid). rewrite Hget.
        destruct (decide (1 ≤ k ≤ N.of_nat n)%N).
        -- by rewrite decide_True by lia.
        -- by rewrite decide_False by lia.
    + rewrite Hbook.
      pose proof (map_size_delete_Some (N.of_nat (S n)) (OrderManager.orders_ mid)
                    ltac:(by eexists)) as Hdel.
      assert (base.size (OrderManager.orders_ mid) ≠ 0%nat).
      { intros Hz. apply map_size_empty_inv in Hz.
        unfold OrderManager.get_order in Ho. rewrite Hz in Ho.
        by rewrite lookup_empty in Ho. }
      lia.
    + by rewrite Hadd.
    + rewrite Hcan, Hc. unfold OrderManager.wrap64.
      destruct n as [|n]; [f_equal; lia|].
      rewrite Zplus_mod_idemp_l. f_equal. lia.
Qed.

(** X12: whatever the manager held before, after [run_benchmark] on
    [count] drawn rounds it holds exactly the generated orders with ids
    above [min(count, 1000)], the counters read [count] added and
    [min(count, 1000)] cancelled, and the statistics printed are those of
    that final manager. *)
Theorem run_benchmark_result draws m :
  let count := length draws in
  let cancelled := (count `min` 1000)%nat in
  let r := Main.run_benchmark draws m in
  (∀ k, OrderManager.get_order k r.2
        = if decide (N.of_nat cancelled < k)%N
          then (λ d : Main.draw, Order.mk k d.1.1 d.1.2 d.2)
                 <$> draws !! N.to_nat (k - 1)
          else None) ∧
  (base.size (OrderManager.orders_ r.2) + cancelled)%nat = count ∧
  OrderManager.total_orders_added_ r.2 = OrderManager.wrap64 (Z.of_nat count) ∧
  OrderManager.total_orders_cancelled_ r.2 = Z.of_nat cancelled ∧
  r.1.2 = OrderManager.print_stats r.2.
Proof.
  intros count cancelled r.
  destruct (generate_fills_ids draws (OrderManager.clear m) eq_refl) as [Hgen Hsize].
  destruct (generate_from_spec draws 0 (OrderManager.clear m)
              (λ j _, lookup_empty j)) as (_ & _ & Hadded & Hcancelled).
  fold (Main.generate_random_orders draws (OrderManager.clear m))
    in Hadded, Hcancelled.
  set (m2 := Main.generate_random_orders draws (OrderManager.clear m)) in *.
  destruct (print_snapshot_book m2) as (Hb3 & Ha3 & Hc3 & _).
  set (m3 := (OrderManager.print_snapshot m2).2) in *.
  assert (∀ k, OrderManager.get_order k m3 = OrderManager.get_order k m2) as Hget3.
  { intros k. unfold OrderManager.get_order. by rewrite Hb3. }
  destruct (cancel_first_spec cancelled m3) as (Hget & Hsz & Ha & Hc).
  { intros k Hk. rewrite Hget3, Hgen, decide_True by lia.
    destruct (lookup_lt_is_Some_2 draws (N.to_nat (k - 1)) ltac:(lia)) as [d ->].
    by eexists. }
  change r.2 with (Main.cancel_first cancelled m3).
  split; [|split; [|split; [|split]]].
  - intros k. rewrite Hget, Hget3, Hgen.
    destruct (decide (N.of_nat cancelled < k)%N) as [Hk|Hk].
    + rewrite decide_False by lia. by rewrite decide_True by lia.
    + destruct (decide (1 ≤ k ≤ N.of_nat cancelled)%N); [done|].
      by rewrite decide_False by lia.
  - rewrite Hb3, Hsize in Hsz. lia.
  - rewrite Ha, Ha3, Hadded. cbn [OrderManager.clear OrderManager.total_orders_added_].
    subst count. by destruct draws.
  - rewrite Hc, Hc3, Hcancelled.
    cbn [OrderManager.clear OrderManager.total_orders_cancelled_].
    destruct cancelled as [|c] eqn:Hcan; [done|].
    unfold OrderManager.wrap64. rewrite Z.mod_small; lia.
  - done.
Qed.

End Benchmark.

Lemma generate_fills_ids_witness :
  let m' := Main.generate_random_orders Fixture.three_draws OrderManager.new in
  (∀ k, OrderManager.get_order k m'
        = if decide (1 ≤ k)%N
          then (λ d : Main.draw, Order.mk k d.1.1 d.1.2 d.2)
                 <$> Fixture.three_draws !! N.to_nat (k - 1)
          else None) ∧
  base.size (OrderManager.orders_ m') = 3%nat.
Proof.
  apply (generate_fills_ids Fixture.three_draws OrderManager.new). reflexivity.
Defined.

(** ** The interactive loop *)

Section InteractiveLoop.

Variable extract_add : string → option (N * float * N * N).
Variable extract_cancel : string → option N.

Implicit Types (m : OrderManager.t) (command line : string).

Lemma read_line_newline (cur s more : string) :
  Std.has_char Std.newline s = false →
  Std.read_line cur (s ++ String Std.newline more) = ((cur ++ s)%string, Some more).
Proof.
  revert cur. induction s as [|c s IH]; intros cur Hfree.
  - change (Std.read_line cur (String Std.newline more)
            = ((cur ++ "")%string, Some more)).
    cbn [Std.read_line]. by rewrite Ascii.eqb_refl, string_app_nil_r.
  - cbn [Std.has_char] in Hfree. apply orb_false_iff in Hfree as [Hc Hfree].
    rewrite string_app_cons. cbn [Std.read_line]. rewrite Hc.
    rewrite (IH _ Hfree). by rewrite string_app_assoc.
Qed.

Lemma read_line_end (cur s : string) :
  Std.has_char Std.newline s = false →
  Std.read_line cur s = ((cur ++ s)%string, None).
Proof.
  revert cur. induction s as [|c s IH]; intros cur Hfree.
  - cbn. by rewrite string_app_nil_r.
  - cbn [Std.has_char] in Hfree. apply orb_false_iff in Hfree as [Hc Hfree].
    cbn [Std.read_line]. rewrite Hc, (IH _ Hfree). by rewrite string_app_assoc.
Qed.

(** What [std::getline] hands over is a line of the input. *)
Lemma read_line_lines (cur s : string) :
  match Std.read_line cur s with
  | (text, Some rest) =>
      Std.getline_all_from Std.newline cur s
      = text :: Std.getline_all_from Std.newline "" rest
  | (text, None) =>
      Std.getline_all_from Std.newline cur s
      = if decide (text = ""%string) then [] else [text]
  end.
Proof.
  revert cur. induction s as [|c s IH]; intros cur; [done|].
  cbn [Std.read_line Std.getline_all_from].
  destruct (Ascii.eqb c Std.newline); [done|]. apply IH.
Qed.

Lemma dispatch_goes_on command m :
  command ≠ "quit"%string → command ≠ "exit"%string →
  ∃ text m', Main.dispatch extract_add extract_cancel command m = Main.Next text m'.
Proof.
  intros Hquit Hexit. unfold Main.dispatch.
  repeat case_decide; try (exfalso; tauto); try (by do 2 eexists).
  - destruct (extract_add command) as [[[[id price] qty] side]|]; by do 2 eexists.
  - destruct (extract_cancel command) as [id|]; by do 2 eexists.
Qed.

Lemma interactive_loop_runs (fuel : nat) :
  ∀ (cin : Std.istream) command m written,
    command ≠ "quit"%string → command ≠ "exit"%string →
    (Std.good cin = true →
     Forall (λ l, l ≠ "quit"%string ∧ l ≠ "exit"%string)
       (Std.getline_all Std.newline (Std.pending cin))) →
    Main.interactive_loop extract_add extract_cancel fuel cin command m written = None.
Proof.
  induction fuel as [|fuel IH]; intros cin command m written Hquit Hexit Hlines;
    [done|].
  cbn [Main.interactive_loop].
  assert ((Std.getline cin command).1 ≠ "quit"%string ∧
          (Std.getline cin command).1 ≠ "exit"%string ∧
          (Std.good (Std.getline cin command).2 = true →
           Forall (λ l, l ≠ "quit"%string ∧ l ≠ "exit"%string)
             (Std.getline_all Std.newline (Std.pending (Std.getline cin command).2))))
    as (Hq & He & Hrest).
  { unfold Std.getline.
    destruct (Std.good cin) eqn:Hgood; [|cbn [fst snd]; by rewrite Hgood].
    specialize (Hlines eq_refl). unfold Std.getline_all in *.
    pose proof (read_line_lines "" (Std.pending cin)) as Hread.
    destruct (Std.read_line "" (Std.pending cin)) as [text [rest|]]; cbn [fst snd].
    - rewrite Hread in Hlines. apply Forall_cons in Hlines as [[? ?] ?]. done.
    - rewrite Hread in Hlines. cbn [Std.good].
      case_decide as Hempty; [by subst text|].
      apply Forall_cons in Hlines as [[? ?] ?]. done. }
  destruct (dispatch_goes_on (Std.getline cin command).1 m Hq He)
    as (text & m' & ->).
  by apply IH.
Qed.

(** X14: a session whose input has no line "quit" or "exit" never leaves
    the loop: at the end of the input [std::getline] fails, its result is
    not looked at, and the loop goes on with the command it has, whatever
    the number of passes. *)
Theorem interactive_without_quit_runs_on (input : string) m :
  Forall (λ l, l ≠ "quit"%string ∧ l ≠ "exit"%string)
    (Std.getline_all Std.newline input) →
  ∀ fuel, Main.interactive_mode extract_add extract_cancel fuel input m = None.
Proof.
  intros Hlines fuel. unfold Main.interactive_mode.
  by apply interactive_loop_runs.
Qed.

End InteractiveLoop.

Section InteractiveQuit.

Variable stod : string → option float.
Variable extract_add : string → option (N * float * N * N).
Variable extract_cancel : string → option N.

Implicit Types (m : OrderManager.t) (command line : string).

(** A command other than "quit" and "exit" keeps the loop going, and its
    effect on the manager is that of the call it stands for. *)
Lemma dispatch_next command m :
  command ≠ "quit"%string → command ≠ "exit"%string →
  ∃ text,
    Main.dispatch extract_add extract_cancel command m
    = Main.Next text
        (from_option (OrderManager.step stod m) m
           (Main.command_call extract_add extract_cancel command)).
Proof.
  intros Hquit Hexit. unfold Main.dispatch, Main.command_call.
  repeat case_decide; try (exfalso; tauto); try (by eexists).
  - destruct (extract_add command) as [[[[id price] qty] side]|]; by eexists.
  - destruct (extract_cancel command) as [id|]; by eexists.
Qed.

Lemma interactive_loop_quit (commands : list string) (last tail : string) :
  Forall (λ c, Std.has_char Std.newline c = false ∧
               c ≠ "quit"%string ∧ c ≠ "exit"%string) commands →
  last = "quit"%string ∨ last = "exit"%string →
  tail = ""%string ∨ (∃ more, tail = String Std.newline more) →
  ∀ fuel command m written,
    (length commands < fuel)%nat →
    ∃ written',
      Main.interactive_loop extract_add extract_cancel fuel
        {| Std.pending := (Std.endl_text commands ++ last ++ tail)%string;
           Std.good := true |} command m written
      = Some (written',
              OrderManager.run stod
                (omap (Main.command_call extract_add extract_cancel) commands) m).
Proof.
  intros Hcommands Hlast Htail.
  assert (Std.has_char Std.newline last = false) as Hlast_free
    by (by destruct Hlast as [->| ->]).
  induction Hcommands as [|c commands (Hfree & Hquit & Hexit) _ IH];
    intros fuel command m written Hfuel.
  - destruct fuel as [|fuel]; [cbn in Hfuel; lia|].
    cbn [Main.interactive_loop Std.endl_text foldr].
    assert ((Std.getline
               {| Std.pending := ("" ++ last ++ tail)%string; Std.good := true |}
               command).1 = last) as ->.
    { unfold Std.getline. cbn [Std.good Std.pending].
      change ("" ++ last ++ tail)%string with (last ++ tail)%string.
      destruct Htail as [->|[more ->]].
      - rewrite string_app_nil_r, read_line_end by done. done.
      - rewrite read_line_newline by done. done. }
    unfold Main.dispatch. rewrite decide_True by done. by eexists.
  - destruct fuel as [|fuel]; [cbn in Hfuel; lia|].
    cbn [Main.interactive_loop].
    assert (Std.getline
              {| Std.pending := (Std.endl_text (c :: commands) ++ last ++ tail)%string;
                 Std.good := true |} command
            = (c, {| Std.pending := (Std.endl_text commands ++ last ++ tail)%string;
                     Std.good := true |})) as ->.
    { unfold Std.getline. cbn [Std.good Std.pending Std.endl_text foldr].
      fold (Std.endl_text commands).
      rewrite string_app_assoc, string_app_cons.
      by rewrite read_line_newline by done. }
    cbn [fst snd].
    destruct (dispatch_next c m Hquit Hexit) as [text ->].
    destruct (IH fuel c
                (from_option (OrderManager.step stod m) m
                   (Main.command_call extract_add extract_cancel c))
                ((written ++ [String Std.newline "> "]) ++ text)
                ltac:(cbn in Hfuel; lia)) as [written' ->].
    exists written'. f_equal. f_equal. cbn [omap list_omap].
    destruct (Main.command_call extract_add extract_cancel c); reflexivity.
Qed.

(** X13: a session that types some commands and then "quit" or "exit"
    ends (any number of passes above the number of commands is enough) and
    leaves the manager as the run of the calls those commands stand for
    leaves it; what is typed after "quit" is not read. *)
Theorem interactive_until_quit (commands : list string) (last tail : string) m :
  Forall (λ c, Std.has_char Std.newline c = false ∧
               c ≠ "quit"%string ∧ c ≠ "exit"%string) commands →
  last = "quit"%string ∨ last = "exit"%string →
  tail = ""%string ∨ (∃ more, tail = String Std.newline more) →
  ∀ fuel, (length commands < fuel)%nat →
    ∃ written,
      Main.interactive_mode extract_add extract_cancel fuel
        (Std.endl_text commands ++ last ++ tail)%string m
      = Some (written,
              OrderManager.run stod
                (omap (Main.command_call extract_add extract_cancel) commands) m).
Proof.
  intros Hcommands Hlast Htail fuel Hfuel. unfold Main.interactive_mode.
  by apply interactive_loop_quit.
Qed.

End InteractiveQuit.

Lemma interactive_until_quit_witness :
  ∃ written,
    Main.interactive_mode Fixture.extract_add_sample Fixture.extract_cancel_sample 4
      (Std.endl_text ["add 1 150.50 100 0"; "add 2 151.25 200 1"; "cancel 1"]
       ++ "quit" ++ "")%string OrderManager.new
    = Some (written,
            OrderManager.run Std.stod_decimal
              (omap (Main.command_call Fixture.extract_add_sample
                       Fixture.extract_cancel_sample)
                 ["add 1 150.50 100 0"; "add 2 151.25 200 1"; "cancel 1"]%string)
              OrderManager.new).
Proof.
  apply (interactive_until_quit Std.stod_decimal Fixture.extract_add_sample
           Fixture.extract_cancel_sample
           ["add 1 150.50 100 0"; "add 2 151.25 200 1"; "cancel 1"]%string
           "quit"%string ""%string OrderManager.new).
  - repeat constructor; discriminate.
  - by left.
  - by left.
  - cbn. lia.
Defined.

Lemma interactive_without_quit_runs_on_witness :
  Main.interactive_mode Fixture.extract_add_sample Fixture.extract_cancel_sample 1000
    (Std.endl_text ["add 1 150.50 100 0"; "stats"]) OrderManager.new = None.
Proof.
  apply (interactive_without_quit_runs_on Fixture.extract_add_sample
           Fixture.extract_cancel_sample
           (Std.endl_text ["add 1 150.50 100 0"; "stats"]) OrderManager.new).
  repeat constructor; discriminate.
Defined.
